(** * Verification of [generate_sample_zkb_statement.py]

    A shallow embedding of the script that renders the sample ZKB account
    statement, and the properties of its layout, formatting and totals.

    - Python [str] values are sequences of Unicode code points.
    - Python [float] values are IEEE 754 binary64 numbers: they are modelled
      by [spec_float] with the operations of [SpecFloat] at precision 53 and
      maximal exponent 1024; literals are read through the kernel's
      primitive floats, which round a decimal literal to the nearest
      binary64 value as Python's parser does.
    - The canvas of the drawing library is modelled by the sequence of the
      calls made on it; the standard output by the sequence of printed
      lines. *)

From Stdlib Require Import ZArith List String Ascii Bool Lia QArith Qabs DecimalPos.
From Stdlib Require Import PrimFloat SpecFloat FloatOps.
Import ListNotations.

#[local] Set Warnings "-inexact-float".
#[local] Open Scope Z_scope.

(** ** Python strings *)

Module Py.

(** A [str] is a list of code points. *)
Definition str := list N.

(** String literals of this file are UTF-8 encoded; [continuation b]
    extracts the six payload bits of a continuation byte. *)
Definition continuation (b : N) : N := N.land b 63.

Fixpoint utf8_decode (bs : list N) (fuel : nat) : str :=
  match fuel with
  | O => []
  | S fuel =>
      match bs with
      | [] => []
      | b0 :: rest =>
          if (b0 <? 128)%N then b0 :: utf8_decode rest fuel
          else if (b0 <? 224)%N then
            match rest with
            | b1 :: rest' =>
                (N.land b0 31 * 64 + continuation b1)%N :: utf8_decode rest' fuel
            | _ => []
            end
          else if (b0 <? 240)%N then
            match rest with
            | b1 :: b2 :: rest' =>
                (N.land b0 15 * 4096 + continuation b1 * 64 + continuation b2)%N
                  :: utf8_decode rest' fuel
            | _ => []
            end
          else
            match rest with
            | b1 :: b2 :: b3 :: rest' =>
                (N.land b0 7 * 262144 + continuation b1 * 4096
                 + continuation b2 * 64 + continuation b3)%N
                  :: utf8_decode rest' fuel
            | _ => []
            end
      end
  end.

Fixpoint bytes_of_string (s : string) : list N :=
  match s with
  | EmptyString => []
  | String a s' => N_of_ascii a :: bytes_of_string s'
  end.

(** [u "..."] is the Python string written as that literal. *)
Definition u (s : string) : str :=
  let bs := bytes_of_string s in utf8_decode bs (List.length bs).

(** [s.replace(old, new)] for one-character [old] and [new]. *)
Definition replace (old new : N) (s : str) : str :=
  map (fun ch => if (ch =? old)%N then new else ch) s.

(** [s == t] *)
Fixpoint str_eqb (s t : str) : bool :=
  match s, t with
  | [], [] => true
  | a :: s', b :: t' => (a =? b)%N && str_eqb s' t'
  | _, _ => false
  end.

(** [s[:n]] *)
Definition slice_to (n : nat) (s : str) : str := firstn n s.

Definition comma : N := 44.
Definition apostrophe : N := 39.
Definition minus : N := 45.
Definition plus : N := 43.
Definition full_stop : N := 46.
Definition newline : N := 10.

Fixpoint uint_chars (d : Decimal.uint) : str :=
  match d with
  | Decimal.Nil => []
  | Decimal.D0 d => 48%N :: uint_chars d
  | Decimal.D1 d => 49%N :: uint_chars d
  | Decimal.D2 d => 50%N :: uint_chars d
  | Decimal.D3 d => 51%N :: uint_chars d
  | Decimal.D4 d => 52%N :: uint_chars d
  | Decimal.D5 d => 53%N :: uint_chars d
  | Decimal.D6 d => 54%N :: uint_chars d
  | Decimal.D7 d => 55%N :: uint_chars d
  | Decimal.D8 d => 56%N :: uint_chars d
  | Decimal.D9 d => 57%N :: uint_chars d
  end.

(** [str(n)] for a non-negative [int]. *)
Definition str_of_nonneg (n : Z) : str := uint_chars (N.to_uint (Z.to_N n)).

End Py.

(** ** Binary64 floating point *)

Module F64.

Definition float64 := spec_float.

Definition prec : Z := 53.
Definition emax : Z := 1024.

(** A float literal of the source. *)
Definition lit (x : PrimFloat.float) : float64 := Prim2SF x.

(** Conversion of a Python [int] in mixed arithmetic. *)
Definition of_int (z : Z) : float64 := binary_normalize prec emax z 0 false.

Definition add : float64 -> float64 -> float64 := SFadd prec emax.
Definition sub : float64 -> float64 -> float64 := SFsub prec emax.
Definition abs : float64 -> float64 := SFabs.
Definition ltb : float64 -> float64 -> bool := SFltb.
Definition leb : float64 -> float64 -> bool := SFleb.

Definition is_finite (x : float64) : bool :=
  match x with
  | S754_zero _ | S754_finite _ _ _ => true
  | _ => false
  end.

(** The exact value of a finite float, as a rational. *)
Definition to_Q (x : float64) : Q :=
  match x with
  | S754_finite s m e =>
      let v := if 0 <=? e then inject_Z (Zpos m * 2 ^ e)
               else Qmake (Zpos m) (Z.to_pos (2 ^ (- e))) in
      if s then Qopp v else v
  | _ => 0%Q
  end.

(** Nearest integer to [num / den], ties to even ([0 < den]). *)
Definition round_half_even (num den : Z) : Z :=
  let q := num / den in
  let r := num mod den in
  match 2 * r ?= den with
  | Lt => q
  | Gt => q + 1
  | Eq => if Z.even q then q else q + 1
  end.

(** The magnitude [m * 2^e] in hundredths, correctly rounded. *)
Definition hundredths (m : positive) (e : Z) : Z :=
  if 0 <=? e then Zpos m * 2 ^ e * 100
  else round_half_even (Zpos m * 100) (2 ^ (- e)).

(** Thousands grouping: a comma before every group of three digits,
    counted from the right. *)
Fixpoint group_rev (ds : Py.str) : Py.str :=
  match ds with
  | a :: ((b :: (c :: ((_ :: _) as rest))))  =>
      a :: b :: c :: Py.comma :: group_rev rest
  | _ => ds
  end.

Definition group_thousands (ds : Py.str) : Py.str := rev (group_rev (rev ds)).

Definition two_digits (n : Z) : Py.str :=
  Py.str_of_nonneg (n / 10) ++ Py.str_of_nonneg (n mod 10).

Definition fixed_2 (h : Z) : Py.str :=
  group_thousands (Py.str_of_nonneg (h / 100))
    ++ [Py.full_stop] ++ two_digits (h mod 100).

(** [format(x, ",.2f")] *)
Definition format_comma_2f (x : float64) : Py.str :=
  match x with
  | S754_nan => Py.u "nan"
  | S754_infinity s => if s then Py.u "-inf" else Py.u "inf"
  | S754_zero s => (if s then [Py.minus] else []) ++ fixed_2 0
  | S754_finite s m e => (if s then [Py.minus] else []) ++ fixed_2 (hundredths m e)
  end.

End F64.

Abbreviation float64 := F64.float64.
Abbreviation str := Py.str.
Abbreviation u := Py.u.

Coercion F64.of_int : Z >-> F64.float64.

Declare Scope f64_scope.
Delimit Scope f64_scope with f64.
Bind Scope f64_scope with F64.float64.
Notation "x + y" := (F64.add x y) : f64_scope.
Notation "x - y" := (F64.sub x y) : f64_scope.
Notation "x <? y" := (F64.ltb x y) : f64_scope.
Notation "x >=? y" := (F64.leb y x) (at level 70) : f64_scope.

(** ** Built-in [sum] over floats

    [sum] starts from the [int] 0 and adds the items from left to right.
    Since CPython 3.12 the floats that follow the first one are added with
    Neumaier's compensated summation; [compensated] selects that variant. *)

Module Builtins.

Definition is_nonzero (x : float64) : bool :=
  match x with
  | S754_zero _ => false
  | _ => true
  end.

Fixpoint compensated_add (xs : list float64) (hi lo : float64) : float64 * float64 :=
  match xs with
  | [] => (hi, lo)
  | x :: xs' =>
      let t := (hi + x)%f64 in
      let lo' :=
        if (F64.abs hi >=? F64.abs x)%f64
        then (lo + ((hi - t) + x))%f64
        else (lo + ((x - t) + hi))%f64 in
      compensated_add xs' t lo'
  end.

Definition sum (compensated : bool) (xs : list float64) : float64 :=
  if compensated then
    match xs with
    | [] => F64.of_int 0
    | x :: xs' =>
        let '(hi, lo) := compensated_add xs' (F64.of_int 0 + x)%f64 (F64.of_int 0) in
        if is_nonzero lo && F64.is_finite lo then (hi + lo)%f64 else hi
    end
  else fold_left F64.add xs (F64.of_int 0).

End Builtins.

(** ** The canvas and the standard output

    The drawing library is not part of the sources: a canvas is the sequence
    of the calls made on it, in order. *)

Inductive call : Type :=
| Canvas (filename : str) (pagesize : float64 * float64)
| setFont (psfontname : str) (size : Z)
| drawString (x y : float64) (text : str)
| drawRightString (x y : float64) (text : str)
| line (x1 y1 x2 y2 : float64)
| showPage
| save.

(** What a run leaves behind: the calls on the canvas and the lines printed. *)
Record output : Type := mkOutput {
  canvas_calls : list call;
  stdout : list str
}.

Inductive exn : Type :=
| ImportError
| OSError
| SystemExit (code : Z).

Inductive result (A : Type) : Type :=
| Return (a : A)
| Raise (e : exn).
Arguments Return {A} a.
Arguments Raise {A} e.

(** Statements: they transform the output and return or raise. *)
Definition M (A : Type) : Type := output -> result A * output.

Definition ret {A} (a : A) : M A := fun o => (Return a, o).

Definition bind {A B} (m : M A) (k : A -> M B) : M B :=
  fun o =>
    match m o with
    | (Return a, o') => k a o'
    | (Raise e, o') => (Raise e, o')
    end.

Definition raise {A} (e : exn) : M A := fun o => (Raise e, o).

Definition try_except {A} (m : M A) (handler : exn -> M A) : M A :=
  fun o =>
    match m o with
    | (Return a, o') => (Return a, o')
    | (Raise e, o') => handler e o'
    end.

Declare Scope stmt_scope.
Delimit Scope stmt_scope with stmt.
Bind Scope stmt_scope with M.
Notation "x <- m ;; k" := (bind m (fun x => k))
  (at level 61, m at next level, right associativity) : stmt_scope.
Notation "m ;; k" := (bind m (fun _ => k))
  (at level 61, right associativity) : stmt_scope.

Definition c_ (k : call) : M unit :=
  fun o => (Return tt, mkOutput (canvas_calls o ++ [k]) (stdout o)).

Definition print (s : str) : M unit :=
  fun o => (Return tt, mkOutput (canvas_calls o) (stdout o ++ [s])).

(** [for x in xs: y = body(x, y)] *)
Fixpoint for_each {A S} (xs : list A) (body : A -> S -> M S) (s : S) : M S :=
  match xs with
  | [] => ret s
  | x :: xs' => bind (body x s) (for_each xs' body)
  end.

Definition empty_output : output := mkOutput [] [].

(** The files a sequence of canvas calls writes: [save] writes the document
    to the file name the canvas was created with. *)
Fixpoint files_written (current : option str) (cs : list call) : list str :=
  match cs with
  | [] => []
  | Canvas f _ :: cs' => files_written (Some f) cs'
  | save :: cs' =>
      match current with
      | Some f => f :: files_written current cs'
      | None => files_written current cs'
      end
  | _ :: cs' => files_written current cs'
  end.

(** ** The script *)

(** What a run reads from its surroundings: whether the drawing library can
    be imported, its page size constant [A4] (width, height), the value of
    [datetime.now().strftime('%d.%m.%Y')], and which [sum] the interpreter
    has. *)
Record environment : Type := mkEnvironment {
  reportlab_installed : bool;
  A4 : float64 * float64;
  created_on : str;
  compensated_sum : bool
}.

Definition transaction : Type := str * str * float64.

Definition tx (date description : string) (amount : PrimFloat.float) : transaction :=
  (u date, u description, F64.lit amount).

Definition transactions : list transaction := [
  tx "31.01.2026" "Lohnzahlung Januar 2026" (-7500.00);
  tx "30.01.2026" "Miete Wohnung Zürich" 1850.00;
  tx "29.01.2026" "CSS Krankenkasse Prämie" 456.90;
  tx "28.01.2026" "COOP Zürich, Kaufvertrag" 89.45;
  tx "28.01.2026" "Migros Oerlikon, Einkauf" 67.80;
  tx "27.01.2026" "SBB Monatsabo Zone 110" 89.00;
  tx "26.01.2026" "Swisscom AG Rechnung" 79.00;
  tx "25.01.2026" "Restaurant Kronenhalle" 125.50;
  tx "24.01.2026" "Denner Zürich HB" 34.20;
  tx "23.01.2026" "VBZ Tram/Bus Ticket" 12.40;
  tx "22.01.2026" "Manor Zürich, Kleidung" 187.90;
  tx "21.01.2026" "Spotify Premium" 12.95;
  tx "20.01.2026" "Netflix Abonnement" 17.90;
  tx "19.01.2026" "COOP Zürich Bahnhofstrasse" 56.30;
  tx "18.01.2026" "Migros Basel, Wocheneinkauf" 143.75;
  tx "17.01.2026" "Starbucks Zürich HB" 8.50;
  tx "16.01.2026" "McDonald's Zürich" 15.40;
  tx "15.01.2026" "Helsana Krankenkasse Zusatz" 123.50;
  tx "14.01.2026" "EWZ Stromrechnung" 145.00;
  tx "13.01.2026" "Digitec Galaxus AG" 234.90;
  tx "12.01.2026" "Amazon EU S.à r.l." 67.45;
  tx "11.01.2026" "COOP Zürich Seefeld" 45.20;
  tx "10.01.2026" "Migros Zürich City" 78.90;
  tx "09.01.2026" "SBB Billett Zürich-Bern" 52.00;
  tx "08.01.2026" "Mobility Carsharing" 89.00;
  tx "07.01.2026" "Parkhaus Zürich HB" 24.00;
  tx "06.01.2026" "Zalando SE" 145.80;
  tx "05.01.2026" "IKEA Zürich" 267.50;
  tx "04.01.2026" "Coop Bau+Hobby" 89.90;
  tx "03.01.2026" "Apotheke am Central" 34.50;
  tx "02.01.2026" "Fitness First Zürich" 99.00;
  tx "01.01.2026" "Jahresgebühr Konto" 60.00
].

(** [f"{x:,.2f}".replace(",", "'")] *)
Definition swiss_2f (x : float64) : str :=
  Py.replace Py.comma Py.apostrophe (F64.format_comma_2f x).

(** Lines 108-113: the amount column of a row. *)
Definition amount_str (amount : float64) : str :=
  if (amount <? 0)%f64 then swiss_2f (F64.abs amount) else swiss_2f amount.

(** Lines 127-129. *)
Definition total_income (compensated : bool) (txs : list transaction) : float64 :=
  Builtins.sum compensated
    (map (fun '(date, desc, amt) => F64.abs amt)
       (filter (fun '(date, desc, amt) => (amt <? 0)%f64) txs)).

Definition total_expenses (compensated : bool) (txs : list transaction) : float64 :=
  Builtins.sum compensated
    (map (fun '(date, desc, amt) => amt)
       (filter (fun '(date, desc, amt) => (0 <? amt)%f64) txs)).

Definition final_balance (compensated : bool) (txs : list transaction) : float64 :=
  (total_income compensated txs - total_expenses compensated txs)%f64.

(** Line 131. *)
Definition balance_str (compensated : bool) (txs : list transaction) : str :=
  Py.replace Py.comma Py.apostrophe
    (u "CHF " ++ F64.format_comma_2f (final_balance compensated txs)).

Definition default_filename : str := u "ZKB_Sample_Statement_January_2026.pdf".

Section Script.

Variable E : environment.

Let width : float64 := fst (A4 E).
Let height : float64 := snd (A4 E).

(** Lines 21-54: the canvas, the letterhead and the table header; returns
    the cursor [y] of line 47. *)
Definition draw_header (filename : str) : M float64 :=
  (c_ (Canvas filename (A4 E)) ;;
   c_ (setFont (u "Helvetica-Bold") 18) ;;
   c_ (drawString 40 (height - 60) (u "Zürcher Kantonalbank")) ;;
   c_ (setFont (u "Helvetica") 10) ;;
   c_ (drawString 40 (height - 80) (u "Bahnhofstrasse 9")) ;;
   c_ (drawString 40 (height - 95) (u "8001 Zürich")) ;;
   c_ (setFont (u "Helvetica-Bold") 12) ;;
   c_ (drawString 40 (height - 130) (u "Kontoauszug / Account Statement")) ;;
   c_ (setFont (u "Helvetica") 10) ;;
   c_ (drawString 40 (height - 150) (u "Konto / Account: CH93 0070 0110 0012 3456 7")) ;;
   c_ (drawString 40 (height - 165) (u "Periode / Period: 01.01.2026 - 31.01.2026")) ;;
   c_ (drawString 40 (height - 180) (u "Erstellt / Created: " ++ created_on E)) ;;
   c_ (drawString (width - 200) (height - 150) (u "Max Mustermann")) ;;
   c_ (drawString (width - 200) (height - 165) (u "Musterstrasse 123")) ;;
   c_ (drawString (width - 200) (height - 180) (u "8000 Zürich")) ;;
   let y := (height - 220)%f64 in
   c_ (setFont (u "Helvetica-Bold") 9) ;;
   c_ (drawString 40 y (u "Datum")) ;;
   c_ (drawString 100 y (u "Buchungstext")) ;;
   c_ (drawString (width - 120) y (u "Betrag CHF")) ;;
   c_ (line 40 (y - 5) (width - 40) (y - 5)) ;;
   ret y)%stmt.

(** Lines 98-117: the body of the loop over the records. *)
Definition draw_row (t : transaction) (y : float64) : M float64 :=
  let '(date, description, amount) := t in
  (y <- (if (y <? 100)%f64
         then c_ showPage ;;
              let y := (height - 60)%f64 in
              c_ (setFont (u "Helvetica") 9) ;;
              ret y
         else ret y) ;;
   c_ (drawString 40 y date) ;;
   c_ (drawString 100 y (Py.slice_to 45 description)) ;;
   let amount_str := amount_str amount in
   c_ (drawRightString (width - 40) y amount_str) ;;
   ret (y - 15)%f64)%stmt.

(** Lines 97-117. *)
Definition draw_rows (txs : list transaction) (y : float64) : M float64 :=
  for_each txs draw_row y.

(** Lines 119-138: separator, balance and disclaimer. *)
Definition draw_footer (y : float64) : M unit :=
  (c_ (line 40 (y - 10) (width - 40) (y - 10)) ;;
   let y := (y - 25)%f64 in
   c_ (setFont (u "Helvetica-Bold") 10) ;;
   c_ (drawString 40 y (u "Saldo / Balance:")) ;;
   c_ (drawRightString (width - 40) y (balance_str (compensated_sum E) transactions)) ;;
   let y := (y - 40)%f64 in
   c_ (setFont (u "Helvetica") 7) ;;
   c_ (drawString 40 y (u "Zürcher Kantonalbank - Alle Angaben ohne Gewähr")) ;;
   c_ (drawString 40 (y - 10)
         (u "Bitte prüfen Sie die Angaben und melden Sie Unstimmigkeiten innert 30 Tagen.")))%stmt.

(** Lines 143-150. *)
Definition print_summary (filename : str) : M unit :=
  (print (u "✅ Created: " ++ filename) ;;
   print ([Py.newline] ++ u "Statement Summary:") ;;
   print (u "  Period: January 2026") ;;
   print (u "  Transactions: " ++ Py.str_of_nonneg (Z.of_nat (List.length transactions))) ;;
   print (Py.replace Py.comma Py.apostrophe
            (u "  Total Income: CHF "
               ++ F64.format_comma_2f (total_income (compensated_sum E) transactions))) ;;
   print (Py.replace Py.comma Py.apostrophe
            (u "  Total Expenses: CHF "
               ++ F64.format_comma_2f (total_expenses (compensated_sum E) transactions))) ;;
   print (Py.replace Py.comma Py.apostrophe
            (u "  Final Balance: CHF "
               ++ F64.format_comma_2f (final_balance (compensated_sum E) transactions))) ;;
   print ([Py.newline] ++ u "Use this PDF to test the ZüriBudget app!"))%stmt.

Definition create_zkb_statement (filename : str) : M unit :=
  (y <- draw_header filename ;;
   let y := (y - 25)%f64 in
   c_ (setFont (u "Helvetica") 9) ;;
   y <- draw_rows transactions y ;;
   draw_footer y ;;
   c_ save ;;
   print_summary filename)%stmt.

(** [from reportlab... import ...] *)
Definition import_reportlab : M unit :=
  if reportlab_installed E then ret tt else raise ImportError.

(** Lines 153-164. *)
Definition main : M unit :=
  (try_except import_reportlab
     (fun e =>
        match e with
        | ImportError =>
            print (u "❌ Error: reportlab not installed") ;;
            print ([Py.newline] ++ u "Install it with:") ;;
            print (u "  pip3 install reportlab") ;;
            raise (SystemExit 1)
        | _ => raise e
        end) ;;
   create_zkb_statement default_filename)%stmt.

(** The module, top to bottom: the imports of lines 12-14 (those of lines
    15-16 are of the standard library), the definition of the function,
    and the [__main__] block. *)
Definition script : M unit :=
  (import_reportlab ;;
   import_reportlab ;;
   import_reportlab ;;
   main)%stmt.

End Script.

(** The status the interpreter exits with: 0 at the end of the script, the
    code of [sys.exit], and 1 after the traceback of any other exception,
    which goes to the standard error stream. *)
Definition exit_status {A} (r : result A) : Z :=
  match r with
  | Return _ => 0
  | Raise (SystemExit code) => code
  | Raise _ => 1
  end.

Definition run (E : environment) : Z * output :=
  let '(r, o) := script E empty_output in (exit_status r, o).

(** ** Page sizes *)

(** Modelled from the spec: the page size constant [A4] of the drawing
    library, which is not part of the sources; the spec gives it as
    595 x 842 points. *)
Definition A4_points : float64 * float64 := (F64.of_int 595, F64.of_int 842).

(** The same constant as the drawing library computes it, in binary64:
    [inch = 72.0], [cm = inch / 2.54], [mm = cm * 0.1] and
    [A4 = (210*mm, 297*mm)]. *)
Definition A4_millimetres : float64 * float64 :=
  (F64.lit (210 * (72.0 / 2.54 * 0.1)), F64.lit (297 * (72.0 / 2.54 * 0.1))).

(** ** Observations on a run *)

(** What a statement returns, draws and prints when it starts from nothing. *)
Definition value_of {A} (m : M A) : result A := fst (m empty_output).
Definition calls_of {A} (m : M A) : list call := canvas_calls (snd (m empty_output)).
Definition lines_of {A} (m : M A) : list str := stdout (snd (m empty_output)).

(** [o] followed by [o']. *)
Definition followed_by (o o' : output) : output :=
  mkOutput (canvas_calls o ++ canvas_calls o') (stdout o ++ stdout o').

(** [runs m a cs ls]: from any output, [m] returns [a] after adding the
    calls [cs] and the lines [ls]. *)
Definition runs {A} (m : M A) (a : A) (cs : list call) (ls : list str) : Prop :=
  forall o, m o = (Return a, followed_by o (mkOutput cs ls)).

(** The text of the balance line: the right-aligned strings that follow
    the balance label. *)
Fixpoint balance_texts (cs : list call) : list str :=
  match cs with
  | [] => []
  | c :: rest =>
      match c, rest with
      | drawString _ _ label, drawRightString _ _ text :: _ =>
          if Py.str_eqb label (u "Saldo / Balance:")
          then text :: balance_texts rest
          else balance_texts rest
      | _, _ => balance_texts rest
      end
  end.

(** The vertical coordinates a call draws at. *)
Definition drawn_at (c : call) : list float64 :=
  match c with
  | drawString _ y _ | drawRightString _ y _ => [y]
  | line _ y1 _ y2 => [y1; y2]
  | _ => []
  end.

(** No text or line of the call lies below 100. *)
Definition above_margin (c : call) : bool :=
  forallb (fun y => negb (y <? 100)%f64) (drawn_at c).

(** No call of the run draws below 100. *)
Definition never_below_margin (cs : list call) : bool := forallb above_margin cs.

Definition is_showPage (c : call) : bool :=
  match c with showPage => true | _ => false end.

Definition is_save (c : call) : bool :=
  match c with save => true | _ => false end.

Definition is_Canvas (c : call) : bool :=
  match c with Canvas _ _ => true | _ => false end.

(** The label that opens the balance line. *)
Definition is_balance_label (c : call) : bool :=
  match c with
  | drawString _ _ text => Py.str_eqb text (u "Saldo / Balance:")
  | _ => false
  end.

(** The table rows among the calls: a row is a left-aligned date, a
    left-aligned description and a right-aligned amount, drawn one after
    the other. *)
Fixpoint rows_drawn (cs : list call) : list (str * str * str) :=
  match cs with
  | [] => []
  | c :: rest =>
      match c, rest with
      | drawString _ _ date, drawString _ _ description :: drawRightString _ _ amount :: _ =>
          (date, description, amount) :: rows_drawn rest
      | _, _ => rows_drawn rest
      end
  end.

(** The row the loop draws for a record. *)
Definition rendered (t : transaction) : str * str * str :=
  let '(date, description, amount) := t in
  (date, Py.slice_to 45 description, amount_str amount).

(** The cursor the loop tests at each of its iterations. *)
Fixpoint tested_cursors (E : environment) (txs : list transaction) (y : float64)
  : list float64 :=
  match txs with
  | [] => []
  | t :: txs' =>
      y :: match value_of (draw_row E t y) with
           | Return y' => tested_cursors E txs' y'
           | Raise _ => []
           end
  end.

(** The exact sum of finite floats. *)
Definition exact_sum (xs : list float64) : Q :=
  fold_right (fun x acc => (F64.to_Q x + acc)%Q) 0%Q xs.

Definition amount_of (t : transaction) : float64 := snd t.
Definition description_of (t : transaction) : str := snd (fst t).
Definition date_of (t : transaction) : str := fst (fst t).

(** ** The record loop as the specification words it

    Steps 4a to 4e: for each record in input order, if the cursor is below
    the margin threshold finalize the page, start a new one, reset the
    cursor to the top-of-page offset and reset the font; draw the date, the
    description cut at 45 characters and the amount; advance the cursor by
    the row height. *)

Definition spec_margin_threshold : float64 := F64.of_int 100.
Definition spec_row_height : float64 := F64.of_int 15.
Definition spec_top_offset (page : float64 * float64) : float64 := (snd page - 60)%f64.

Definition spec_page_break (cursor : float64) : list call :=
  if (cursor <? spec_margin_threshold)%f64
  then [showPage; setFont (u "Helvetica") 9]
  else [].

Definition spec_row_cursor (page : float64 * float64) (cursor : float64) : float64 :=
  if (cursor <? spec_margin_threshold)%f64 then spec_top_offset page else cursor.

Fixpoint spec_record_loop (page : float64 * float64) (records : list transaction)
  (cursor : float64) : list call * float64 :=
  match records with
  | [] => ([], cursor)
  | (date, description, amount) :: rest =>
      let y := spec_row_cursor page cursor in
      let row := [drawString 40 y date;
                  drawString 100 y (firstn 45 description);
                  drawRightString (fst page - 40) y (amount_str amount)] in
      let '(more, final) := spec_record_loop page rest (y - spec_row_height)%f64 in
      (spec_page_break cursor ++ row ++ more, final)
  end.

(** The cursor the loop of [create_zkb_statement] starts from (lines 47 and
    57), and the one it leaves. *)
Definition first_cursor (E : environment) : float64 := (snd (A4 E) - 220 - 25)%f64.

Definition last_cursor (E : environment) (txs : list transaction) : float64 :=
  match value_of (draw_rows E txs (first_cursor E)) with
  | Return y => y
  | Raise _ => first_cursor E
  end.

(** The amounts of the records as the source writes them, in hundredths. *)
Definition amounts_in_cents : list Z := [
  -750000; 185000; 45690; 8945; 6780; 8900; 7900; 12550; 3420; 1240; 18790;
  1295; 1790; 5630; 14375; 850; 1540; 12350; 14500; 23490; 6745; 4520; 7890;
  5200; 8900; 2400; 14580; 26750; 8990; 3450; 9900; 6000
].

(** The binary64 number nearest to [cents / 100]. *)
Definition nearest_float (cents : Z) : float64 :=
  SFdiv F64.prec F64.emax (F64.of_int cents) (F64.of_int 100).

(** The sums of the decimal amounts, in hundredths. *)
Definition income_in_cents : Z :=
  fold_right Z.add 0 (map Z.abs (filter (fun c => c <? 0) amounts_in_cents)).

Definition expenses_in_cents : Z :=
  fold_right Z.add 0 (filter (fun c => 0 <? c) amounts_in_cents).

(** An amount of hundredths written with two decimals and apostrophes. *)
Definition decimal_2f (cents : Z) : str :=
  Py.replace Py.comma Py.apostrophe (F64.fixed_2 cents).

(** A string without a sign character. *)
Definition unsigned (s : str) : bool :=
  forallb (fun ch => negb (ch =? Py.minus)%N && negb (ch =? Py.plus)%N) s.

(** The float [-0.0]. *)
Definition is_negative_zero (x : float64) : bool :=
  match x with
  | S754_zero true => true
  | _ => false
  end.

(** The amount column of the statement, top to bottom. *)
Definition expected_amounts : list str := [
  u "7'500.00"; u "1'850.00"; u "456.90"; u "89.45"; u "67.80"; u "89.00";
  u "79.00"; u "125.50"; u "34.20"; u "12.40"; u "187.90"; u "12.95";
  u "17.90"; u "56.30"; u "143.75"; u "8.50"; u "15.40"; u "123.50";
  u "145.00"; u "234.90"; u "67.45"; u "45.20"; u "78.90"; u "52.00";
  u "89.00"; u "24.00"; u "145.80"; u "267.50"; u "89.90"; u "34.50";
  u "99.00"; u "60.00"
].

(** A record whose description has 52 characters. *)
Definition long_record : transaction :=
  tx "05.02.2026" "Dauerauftrag Nebenkostenabrechnung Liegenschaft 2025" 412.35.

(** ** Sample environments *)

Definition sample_environment : environment :=
  mkEnvironment true A4_points (u "04.11.2026") false.

Definition sample_environment_mm : environment :=
  mkEnvironment true A4_millimetres (u "04.11.2026") true.

(** ** Further observations *)

(** A call without its text: what is drawn where. *)
Definition layout_of (c : call) : call :=
  match c with
  | Canvas _ pagesize => Canvas [] pagesize
  | drawString x y _ => drawString x y []
  | drawRightString x y _ => drawRightString x y []
  | _ => c
  end.

(** A record with nothing in it. *)
Definition blank_record : transaction := ([], [], F64.of_int 0).

(** The cursor the loop leaves when it starts from [y]. *)
Definition cursor_after (E : environment) (txs : list transaction) (y : float64)
  : float64 :=
  match value_of (draw_rows E txs y) with
  | Return y' => y'
  | Raise _ => y
  end.

(** The cursors the loop of [create_zkb_statement] tests in its first [n]
    iterations, whatever the records. *)
Definition cursor_orbit (E : environment) (n : nat) : list float64 :=
  tested_cursors E (repeat blank_record n) (first_cursor E).

(** Structural equality of floats. *)
Definition same_float (x y : float64) : bool :=
  match x, y with
  | S754_zero s, S754_zero s' => Bool.eqb s s'
  | S754_infinity s, S754_infinity s' => Bool.eqb s s'
  | S754_nan, S754_nan => true
  | S754_finite s m e, S754_finite s' m' e' =>
      Bool.eqb s s' && (m =? m')%positive && (e =? e')
  | _, _ => false
  end.

(** The call draws between [low] and [high]. *)
Definition drawn_between (low high : float64) (c : call) : bool :=
  forallb (fun y => (y >=? low)%f64 && (high >=? y)%f64) (drawn_at c).

(** The sign bit of a float that is a number. *)
Definition is_negative (x : float64) : bool :=
  match x with
  | S754_zero s | S754_infinity s | S754_finite s _ _ => s
  | S754_nan => false
  end.

Definition is_zero_or_nan (x : float64) : bool :=
  match x with
  | S754_zero _ | S754_nan => true
  | _ => false
  end.

Definition is_zero (x : float64) : bool :=
  match x with
  | S754_zero _ => true
  | _ => false
  end.

Definition is_digit (ch : N) : bool := (48 <=? ch)%N && (ch <=? 57)%N.

Definition is_digit_or_apostrophe (ch : N) : bool :=
  is_digit ch || (ch =? Py.apostrophe)%N.

(** A list of 35 records: the 32 of the statement and its first three again. *)
Definition thirty_five_records : list transaction :=
  transactions ++ firstn 3 transactions.

(** ** Saving to a file that cannot be written

    [c.save()] opens the file the canvas was created with. When that file
    cannot be opened (an empty name, a directory that does not exist) it
    raises [OSError] and writes nothing; [writable] tells the names that
    can be opened. *)
Definition save_canvas (writable : str -> bool) (filename : str) : M unit :=
  if writable filename then c_ save else raise OSError.

(** [create_zkb_statement] with that [save] on line 140. *)
Definition create_zkb_statement_on (writable : str -> bool) (E : environment)
  (filename : str) : M unit :=
  (y <- draw_header E filename ;;
   let y := (y - 25)%f64 in
   c_ (setFont (u "Helvetica") 9) ;;
   y <- draw_rows E transactions y ;;
   draw_footer E y ;;
   save_canvas writable filename ;;
   print_summary E filename)%stmt.

(** A file system on which every name but the empty one can be opened. *)
Definition not_the_empty_name (filename : str) : bool :=
  negb (Py.str_eqb filename []).

(** * Properties *)

(** ** Statements add to the output *)

Lemma followed_by_assoc (o1 o2 o3 : output) :
  followed_by (followed_by o1 o2) o3 = followed_by o1 (followed_by o2 o3).
Proof.
  unfold followed_by; simpl. now rewrite <- !app_assoc.
Qed.

Lemma followed_by_empty_r (o : output) : followed_by o empty_output = o.
Proof.
  destruct o; unfold followed_by; simpl. now rewrite !app_nil_r.
Qed.

Lemma runs_ret {A} (a : A) : runs (ret a) a [] [].
Proof.
  intros o. unfold ret. change (mkOutput [] []) with empty_output.
  now rewrite followed_by_empty_r.
Qed.

Lemma runs_c_ (k : call) : runs (c_ k) tt [k] [].
Proof. intros o. unfold c_, followed_by; simpl. now rewrite app_nil_r. Qed.

Lemma runs_print (s : str) : runs (print s) tt [] [s].
Proof. intros o. unfold print, followed_by; simpl. now rewrite app_nil_r. Qed.

Lemma runs_bind {A B} (m : M A) (k : A -> M B) a b cs cs' ls ls' :
  runs m a cs ls -> runs (k a) b cs' ls' -> runs (bind m k) b (cs ++ cs') (ls ++ ls').
Proof.
  intros Hm Hk o. unfold bind. rewrite (Hm o), (Hk _).
  now rewrite followed_by_assoc.
Qed.

Lemma runs_observed {A} (m : M A) a cs ls :
  runs m a cs ls -> value_of m = Return a /\ calls_of m = cs /\ lines_of m = ls.
Proof.
  intros H. unfold value_of, calls_of, lines_of. now rewrite (H empty_output).
Qed.

Lemma runs_eq {A} (m : M A) a cs ls cs' ls' :
  runs m a cs ls -> cs = cs' -> ls = ls' -> runs m a cs' ls'.
Proof. now intros H <- <-. Qed.

Ltac runs_step :=
  lazymatch goal with
  | |- runs (bind _ _) _ _ _ => eapply runs_bind
  | |- runs (ret _) _ _ _ => apply runs_ret
  | |- runs (c_ _) _ _ _ => apply runs_c_
  | |- runs (print _) _ _ _ => apply runs_print
  | |- runs (let _ := _ in _) _ _ _ => cbv zeta
  end.

(** Runs a straight-line statement and leaves the two equations on what it
    drew and printed. *)
Ltac runs_tac := eapply runs_eq; [repeat runs_step | |].

(** ** The phases of [create_zkb_statement] *)

Section Phases.

Variable E : environment.

Lemma draw_header_runs (filename : str) :
  runs (draw_header E filename) (snd (A4 E) - 220)%f64
    (calls_of (draw_header E filename)) [].
Proof. unfold draw_header at 1. runs_tac; reflexivity. Qed.

Lemma draw_footer_runs (y : float64) :
  runs (draw_footer E y) tt (calls_of (draw_footer E y)) [].
Proof. unfold draw_footer at 1. runs_tac; reflexivity. Qed.

Lemma print_summary_runs (filename : str) :
  runs (print_summary E filename) tt [] (lines_of (print_summary E filename)).
Proof. unfold print_summary at 1. runs_tac; reflexivity. Qed.

(** One iteration of the loop is one step of the loop of the specification. *)
Lemma draw_row_runs (date description : str) (amount y : float64) :
  let y' := spec_row_cursor (A4 E) y in
  runs (draw_row E (date, description, amount) y) (y' - spec_row_height)%f64
    (spec_page_break y
       ++ [drawString 40 y' date;
           drawString 100 y' (firstn 45 description);
           drawRightString (fst (A4 E) - 40) y' (amount_str amount)])
    [].
Proof.
  unfold draw_row, spec_row_cursor, spec_page_break, spec_margin_threshold,
    spec_row_height, spec_top_offset.
  destruct (y <? 100)%f64; runs_tac; reflexivity.
Qed.

Lemma spec_record_loop_cons page date description amount rest cursor :
  spec_record_loop page ((date, description, amount) :: rest) cursor
  = let y := spec_row_cursor page cursor in
    let next := spec_record_loop page rest (y - spec_row_height)%f64 in
    (spec_page_break cursor
       ++ [drawString 40 y date;
           drawString 100 y (firstn 45 description);
           drawRightString (fst page - 40) y (amount_str amount)]
       ++ fst next,
     snd next).
Proof.
  cbn [spec_record_loop]; cbv zeta.
  now destruct (spec_record_loop page rest
                  (spec_row_cursor page cursor - spec_row_height)%f64).
Qed.

Lemma draw_rows_runs (txs : list transaction) :
  forall y,
    runs (draw_rows E txs y)
      (snd (spec_record_loop (A4 E) txs y)) (fst (spec_record_loop (A4 E) txs y)) [].
Proof.
  induction txs as [| [[date description] amount] txs IH]; intros y.
  - apply runs_ret.
  - change (draw_rows E ((date, description, amount) :: txs) y)
      with (bind (draw_row E (date, description, amount) y) (draw_rows E txs)).
    rewrite spec_record_loop_cons; cbv zeta; cbn [fst snd].
    eapply runs_eq.
    + eapply runs_bind; [apply draw_row_runs | apply IH].
    + now rewrite <- app_assoc.
    + reflexivity.
Qed.

Lemma last_cursor_spec (txs : list transaction) :
  last_cursor E txs = snd (spec_record_loop (A4 E) txs (first_cursor E)).
Proof.
  unfold last_cursor.
  now destruct (runs_observed _ _ _ _ (draw_rows_runs txs (first_cursor E))) as (-> & _).
Qed.

Lemma create_zkb_statement_runs (filename : str) :
  runs (create_zkb_statement E filename) tt
    (calls_of (draw_header E filename)
       ++ [setFont (u "Helvetica") 9]
       ++ fst (spec_record_loop (A4 E) transactions (first_cursor E))
       ++ calls_of (draw_footer E (last_cursor E transactions))
       ++ [save])
    (lines_of (print_summary E filename)).
Proof.
  unfold create_zkb_statement. eapply runs_eq.
  - eapply runs_bind; [apply draw_header_runs | cbv zeta].
    eapply runs_bind; [apply runs_c_ |].
    eapply runs_bind; [apply draw_rows_runs |].
    eapply runs_bind; [apply draw_footer_runs |].
    eapply runs_bind; [apply runs_c_ | apply print_summary_runs].
  - rewrite last_cursor_spec. unfold first_cursor. rewrite app_nil_r. reflexivity.
  - reflexivity.
Qed.

End Phases.

(** ** The rows of the table *)

Lemma rows_drawn_loop page (txs : list transaction) :
  forall y rest,
    rows_drawn (fst (spec_record_loop page txs y) ++ rest)
    = map rendered txs ++ rows_drawn rest.
Proof.
  induction txs as [| [[date description] amount] txs IH]; intros y rest.
  - reflexivity.
  - rewrite spec_record_loop_cons; cbv zeta; cbn [fst].
    rewrite <- !app_assoc. unfold spec_page_break.
    destruct (y <? spec_margin_threshold)%f64;
      cbn [app rows_drawn map rendered]; rewrite IH; reflexivity.
Qed.

Lemma rows_drawn_header E filename psfontname size rest :
  rows_drawn (calls_of (draw_header E filename) ++ setFont psfontname size :: rest)
  = rows_drawn rest.
Proof. reflexivity. Qed.

Lemma rows_drawn_footer E y : rows_drawn (calls_of (draw_footer E y) ++ [save]) = [].
Proof. reflexivity. Qed.

Lemma create_zkb_statement_draws E filename :
  calls_of (create_zkb_statement E filename)
  = calls_of (draw_header E filename)
      ++ [setFont (u "Helvetica") 9]
      ++ fst (spec_record_loop (A4 E) transactions (first_cursor E))
      ++ calls_of (draw_footer E (last_cursor E transactions))
      ++ [save].
Proof.
  exact (proj1 (proj2 (runs_observed _ _ _ _ (create_zkb_statement_runs E filename)))).
Qed.

Lemma rows_of_the_statement E filename :
  rows_drawn (calls_of (create_zkb_statement E filename)) = map rendered transactions.
Proof.
  rewrite create_zkb_statement_draws.
  change ([setFont (u "Helvetica") 9] ++ ?l) with (setFont (u "Helvetica") 9 :: l).
  rewrite rows_drawn_header, rows_drawn_loop, rows_drawn_footer.
  apply app_nil_r.
Qed.

Lemma calls_of_draw_rows E txs y :
  calls_of (draw_rows E txs y) = fst (spec_record_loop (A4 E) txs y).
Proof. exact (proj1 (proj2 (runs_observed _ _ _ _ (draw_rows_runs E txs y)))). Qed.

Lemma rows_of_the_loop E txs y :
  rows_drawn (calls_of (draw_rows E txs y)) = map rendered txs.
Proof.
  rewrite calls_of_draw_rows, <- (app_nil_r (fst _)), rows_drawn_loop.
  apply app_nil_r.
Qed.

(** * The claims *)

(** C5. The record loop takes the records in the order of the input. For
    each record it first tests the cursor against the threshold 100; when
    the cursor is below it, it ends the page, resets the cursor to
    [height - 60] and sets the font again, and draws nothing else of the
    header; then it draws the row and moves the cursor down by 15. The loop
    of the source runs as the loop of the specification, and the rows it
    draws are those of the records, one per record and in their order. *)
Theorem record_loop_in_input_order :
  forall (E : environment) (txs : list transaction) (y : float64),
    runs (draw_rows E txs y)
      (snd (spec_record_loop (A4 E) txs y))
      (fst (spec_record_loop (A4 E) txs y)) []
    /\ rows_drawn (calls_of (draw_rows E txs y)) = map rendered txs
    /\ map (fun r => fst (fst r)) (rows_drawn (calls_of (draw_rows E txs y)))
       = map date_of txs
    /\ (forall date description amount rest cursor,
          spec_record_loop (A4 E) ((date, description, amount) :: rest) cursor
          = let below := (cursor <? 100)%f64 in
            let y := if below then (snd (A4 E) - 60)%f64 else cursor in
            let next := spec_record_loop (A4 E) rest (y - 15)%f64 in
            ((if below then [showPage; setFont (u "Helvetica") 9] else [])
               ++ [drawString 40 y date;
                   drawString 100 y (firstn 45 description);
                   drawRightString (fst (A4 E) - 40) y (amount_str amount)]
               ++ fst next,
             snd next)).
Proof.
  intros E txs y. split; [apply draw_rows_runs |].
  split; [apply rows_of_the_loop |]. split.
  - rewrite rows_of_the_loop, map_map. apply map_ext.
    now intros [[date description] amount].
  - intros. apply spec_record_loop_cons.
Qed.

(** C6. The description drawn for a record is the first 45 characters of
    its description: a description of more than 45 characters is drawn as
    exactly its first 45 characters, with nothing put in the place of the
    rest, and one of at most 45 characters is drawn unchanged. *)
Theorem description_cut_at_45 :
  forall (E : environment) (txs : list transaction) (y : float64) (i : nat)
         (date description : str) (amount : float64),
    nth_error txs i = Some (date, description, amount) ->
    exists drawn,
      nth_error (map (fun r => snd (fst r)) (rows_drawn (calls_of (draw_rows E txs y)))) i
      = Some drawn
      /\ drawn = Py.slice_to 45 description
      /\ ((45 < List.length description)%nat ->
          List.length drawn = 45%nat
          /\ description = drawn ++ skipn 45 description
          /\ skipn 45 description <> [])
      /\ ((List.length description <= 45)%nat -> drawn = description).
Proof.
  intros E txs y i date description amount Hi.
  exists (Py.slice_to 45 description).
  rewrite rows_of_the_loop, map_map, nth_error_map, Hi.
  cbn [option_map rendered fst snd]. unfold Py.slice_to.
  split; [reflexivity |]. split; [reflexivity |]. split.
  - intros Hlong. split; [| split].
    + rewrite length_firstn. lia.
    + symmetry; apply firstn_skipn.
    + intros Hnil. apply (f_equal (@List.length N)) in Hnil.
      rewrite length_skipn in Hnil. simpl in Hnil. lia.
  - intros Hshort. now apply firstn_all2.
Qed.

Lemma description_cut_at_45_witness :
  (45 < List.length (description_of long_record))%nat
  /\ exists drawn,
       nth_error
         (map (fun r => snd (fst r))
            (rows_drawn (calls_of (draw_rows sample_environment [long_record] 597)))) 0
       = Some drawn
       /\ drawn = u "Dauerauftrag Nebenkostenabrechnung Liegenscha"
       /\ List.length drawn = 45%nat.
Proof.
  assert (Hlong : (45 < List.length (description_of long_record))%nat)
    by (vm_compute; lia).
  assert (Hnth : nth_error [long_record] 0
                 = Some (date_of long_record, description_of long_record,
                         amount_of long_record))
    by (vm_compute; reflexivity).
  split; [exact Hlong |].
  destruct (description_cut_at_45 sample_environment [long_record] 597 0 _ _ _ Hnth)
    as (drawn & Hdrawn & Hcut & Hlonger & _).
  exists drawn. split; [exact Hdrawn |]. split.
  - rewrite Hcut. vm_compute. reflexivity.
  - now apply Hlonger.
Defined.

(** ** Amounts carry no sign *)

Lemma unsigned_app (s t : str) : unsigned (s ++ t) = unsigned s && unsigned t.
Proof. apply forallb_app. Qed.

Lemma unsigned_rev (s : str) : unsigned s = true -> unsigned (rev s) = true.
Proof.
  unfold unsigned. rewrite !forallb_forall. intros H ch Hin.
  apply H. now apply in_rev.
Qed.

Lemma unsigned_uint_chars (d : Decimal.uint) : unsigned (Py.uint_chars d) = true.
Proof. induction d; cbn; auto. Qed.

Lemma unsigned_group_rev (n : nat) :
  forall ds, (List.length ds <= n)%nat ->
             unsigned ds = true -> unsigned (F64.group_rev ds) = true.
Proof.
  induction n as [| n IH]; intros ds Hlen Hds.
  - destruct ds; [reflexivity | simpl in Hlen; lia].
  - destruct ds as [| a [| b [| c [| d rest]]]]; try exact Hds.
    change (F64.group_rev (a :: b :: c :: d :: rest))
      with ([a; b; c] ++ [Py.comma] ++ F64.group_rev (d :: rest)).
    change (a :: b :: c :: d :: rest) with ([a; b; c] ++ d :: rest) in Hds.
    rewrite unsigned_app in Hds. rewrite !unsigned_app.
    apply andb_true_iff in Hds as [Habc Hrest].
    rewrite Habc, IH; [reflexivity | simpl in *; lia | exact Hrest].
Qed.

Lemma unsigned_replace (s : str) :
  unsigned s = true -> unsigned (Py.replace Py.comma Py.apostrophe s) = true.
Proof.
  unfold unsigned, Py.replace. induction s as [| ch s IH]; [reflexivity |].
  cbn [map forallb]. intros H. apply andb_true_iff in H as [Hch Hs].
  rewrite IH by exact Hs. destruct (ch =? Py.comma)%N; [reflexivity |].
  now rewrite Hch.
Qed.

Lemma unsigned_fixed_2 (h : Z) : unsigned (F64.fixed_2 h) = true.
Proof.
  unfold F64.fixed_2, F64.group_thousands, F64.two_digits, Py.str_of_nonneg.
  rewrite !unsigned_app, !unsigned_uint_chars.
  rewrite unsigned_rev; [reflexivity |].
  eapply unsigned_group_rev; [apply Nat.le_refl |].
  apply unsigned_rev, unsigned_uint_chars.
Qed.

Lemma amount_str_of_abs (amount : float64) :
  is_negative_zero amount = false -> amount_str amount = swiss_2f (F64.abs amount).
Proof.
  destruct amount as [[|] | [|] | | [|] m e]; intros H;
    try discriminate H; reflexivity.
Qed.

Lemma amount_str_unsigned (amount : float64) :
  is_negative_zero amount = false -> unsigned (amount_str amount) = true.
Proof.
  intros H. rewrite (amount_str_of_abs amount H). unfold swiss_2f.
  destruct amount as [[|] | [|] | | s m e]; try discriminate H;
    try (vm_compute; reflexivity);
    apply unsigned_replace; cbn [F64.abs SFabs F64.format_comma_2f app];
    apply unsigned_fixed_2.
Qed.

(** C4. The amount drawn for a record is [abs(amount)] formatted with two
    decimals and an apostrophe between groups of three digits, without a
    sign, whether the amount is negative or not: so it is for every amount
    other than the float [-0.0], and so for each of the 32 records, none of
    which is [-0.0]; the amount column of the statement is
    [expected_amounts]; and 1850.00 is drawn as [1'850.00], 89.45 as
    [89.45]. *)
Theorem amount_drawn_unsigned_swiss :
  (forall amount : float64,
      is_negative_zero amount = false ->
      amount_str amount = swiss_2f (F64.abs amount)
      /\ unsigned (amount_str amount) = true)
  /\ forallb (fun t => negb (is_negative_zero (amount_of t))) transactions = true
  /\ map (fun t => swiss_2f (F64.abs (amount_of t))) transactions = expected_amounts
  /\ (forall E filename,
        map snd (rows_drawn (calls_of (create_zkb_statement E filename)))
        = expected_amounts)
  /\ forallb unsigned expected_amounts = true
  /\ amount_str (F64.lit 1850.00) = u "1'850.00"
  /\ amount_str (F64.lit 89.45) = u "89.45".
Proof.
  split.
  { intros amount H. split; [now apply amount_str_of_abs | now apply amount_str_unsigned]. }
  split; [vm_compute; reflexivity |].
  split; [vm_compute; reflexivity |].
  split.
  { intros E filename. rewrite rows_of_the_statement. vm_compute. reflexivity. }
  repeat split; vm_compute; reflexivity.
Qed.

Lemma amount_drawn_unsigned_swiss_witness :
  amount_str (F64.lit (-7500.00)) = swiss_2f (F64.abs (F64.lit (-7500.00)))
  /\ unsigned (amount_str (F64.lit (-7500.00))) = true.
Proof.
  apply (proj1 amount_drawn_unsigned_swiss (F64.lit (-7500.00))).
  vm_compute. reflexivity.
Defined.

Ltac split_all := repeat match goal with |- _ /\ _ => split end.

(** C1. For the 32 records: the only record with a negative amount is the
    first, and the total income, the sum of the absolute values of the
    negative amounts, is exactly 7500.00; the total of the expenses is the
    sum of the 31 positive amounts, within 10^-9 of their exact sum, and
    shows as 4'803.60; the final balance is the total income minus the
    total of the expenses with no rounding at all, and is rounded to two
    decimals only where it is formatted, as 2'696.40. The strings shown are
    those of exact decimal arithmetic on the amounts as written. This holds
    for both implementations of [sum]. *)
Theorem totals_of_the_statement :
  forall compensated : bool,
    let income := total_income compensated transactions in
    let expenses := total_expenses compensated transactions in
    let balance := final_balance compensated transactions in
    List.length transactions = 32%nat
    /\ map amount_of transactions = map nearest_float amounts_in_cents
    /\ filter (fun t => (amount_of t <? 0)%f64) transactions = firstn 1 transactions
    /\ filter (fun t => (0 <? amount_of t)%f64) transactions = skipn 1 transactions
    /\ income = F64.lit 7500.00
    /\ (F64.to_Q income
        == exact_sum (map (fun t => F64.abs (amount_of t)) (firstn 1 transactions)))%Q
    /\ (F64.to_Q income == 7500)%Q
    /\ expenses = Builtins.sum compensated (map amount_of (skipn 1 transactions))
    /\ Qle_bool
         (Qabs (F64.to_Q expenses - exact_sum (map amount_of (skipn 1 transactions))))
         (1 # 1000000000) = true
    /\ balance = (income - expenses)%f64
    /\ F64.is_finite balance = true
    /\ (F64.to_Q balance == F64.to_Q income - F64.to_Q expenses)%Q
    /\ swiss_2f income = u "7'500.00"
    /\ swiss_2f expenses = u "4'803.60"
    /\ swiss_2f balance = u "2'696.40"
    /\ balance_str compensated transactions = u "CHF 2'696.40"
    /\ swiss_2f income = decimal_2f income_in_cents
    /\ swiss_2f expenses = decimal_2f expenses_in_cents
    /\ swiss_2f balance = decimal_2f (income_in_cents - expenses_in_cents).
Proof.
  intros [|]; cbv zeta; split_all; vm_compute; reflexivity.
Qed.

(** ** Page breaks *)

Lemma above_margin_loop page (txs : list transaction) :
  (spec_top_offset page <? spec_margin_threshold)%f64 = false ->
  forall y, forallb above_margin (fst (spec_record_loop page txs y)) = true.
Proof.
  intros Htop. induction txs as [| [[date description] amount] txs IH]; intros y.
  - reflexivity.
  - rewrite spec_record_loop_cons; cbv zeta; cbn [fst].
    rewrite !forallb_app, IH, andb_true_r.
    unfold spec_page_break, spec_row_cursor.
    destruct (y <? spec_margin_threshold)%f64 eqn:Hy;
      cbn [forallb above_margin drawn_at andb];
      fold spec_margin_threshold; rewrite ?Htop, ?Hy; reflexivity.
Qed.

(** C9. With the page 842 units high the table starts at cursor 622 and the
    loop at 597; the cursors the loop tests are 597, 582, ..., 132, all at
    least 100, so that the branch that starts a new page is never taken:
    neither the loop nor the whole run calls [showPage], and the 32 rows
    are on the first page. The same holds with the page height as the
    drawing library computes it. *)
Theorem no_page_break_for_the_32_records :
  forall (installed : bool) (created : str) (compensated : bool) (filename : str),
    let E := mkEnvironment installed A4_points created compensated in
    let E' := mkEnvironment installed A4_millimetres created compensated in
    value_of (draw_header E filename) = Return (F64.of_int 622)
    /\ first_cursor E = F64.of_int 597
    /\ tested_cursors E transactions (first_cursor E)
       = map (fun i => F64.of_int (597 - 15 * Z.of_nat i)) (seq 0 32)
    /\ forallb (fun y => (y >=? 100)%f64)
         (tested_cursors E transactions (first_cursor E)) = true
    /\ filter is_showPage (calls_of (draw_rows E transactions (first_cursor E))) = []
    /\ filter is_showPage (calls_of (create_zkb_statement E filename)) = []
    /\ List.length (rows_drawn (calls_of (draw_rows E transactions (first_cursor E))))
       = 32%nat
    /\ value_of (draw_rows E transactions (first_cursor E)) = Return (F64.of_int 117)
    /\ List.length (tested_cursors E' transactions (first_cursor E')) = 32%nat
    /\ forallb (fun y => (y >=? 100)%f64)
         (tested_cursors E' transactions (first_cursor E')) = true
    /\ filter is_showPage (calls_of (draw_rows E' transactions (first_cursor E'))) = []
    /\ filter is_showPage (calls_of (create_zkb_statement E' filename)) = [].
Proof.
  intros installed created compensated filename; cbv zeta.
  split_all; vm_compute; reflexivity.
Qed.

(** The claim C2 as stated fails on the fixed run: the first call that
    draws below 100 is the label of the balance line, at 92 on the page
    842 units high, and no new page is started for it; the two lines of
    the disclaimer follow at 52 and 42. With the page height as the drawing
    library computes it the run draws below 100 as well. *)
Lemma footer_drawn_below_margin :
  never_below_margin (canvas_calls (snd (run sample_environment))) = false
  /\ find (fun c => negb (above_margin c)) (canvas_calls (snd (run sample_environment)))
     = Some (drawString 40 92 (u "Saldo / Balance:"))
  /\ (F64.of_int 92 <? 100)%f64 = true
  /\ filter is_showPage (canvas_calls (snd (run sample_environment))) = []
  /\ flat_map drawn_at
       (calls_of (draw_footer sample_environment
                    (last_cursor sample_environment transactions)))
     = map F64.of_int [107; 107; 92; 92; 52; 42]
  /\ never_below_margin (canvas_calls (snd (run sample_environment_mm))) = false.
Proof. split_all; vm_compute; reflexivity. Qed.

Lemma value_of_draw_row E date description amount y :
  value_of (draw_row E (date, description, amount) y)
  = Return (spec_row_cursor (A4 E) y - spec_row_height)%f64.
Proof.
  now destruct (runs_observed _ _ _ _ (draw_row_runs E date description amount y))
    as (-> & _).
Qed.

Lemma tested_cursors_cons E date description amount (txs : list transaction) y :
  tested_cursors E ((date, description, amount) :: txs) y
  = y :: tested_cursors E txs (spec_row_cursor (A4 E) y - spec_row_height)%f64.
Proof. cbn [tested_cursors]. now rewrite value_of_draw_row. Qed.

Lemma page_breaks_of_the_loop E (txs : list transaction) :
  forall y,
    List.length (filter is_showPage (fst (spec_record_loop (A4 E) txs y)))
    = List.length (filter (fun cursor => (cursor <? 100)%f64) (tested_cursors E txs y)).
Proof.
  induction txs as [| [[date description] amount] txs IH]; intros y.
  - reflexivity.
  - rewrite spec_record_loop_cons, tested_cursors_cons; cbv zeta; cbn [fst].
    rewrite !filter_app, !length_app, IH.
    unfold spec_page_break, spec_margin_threshold. cbn [filter is_showPage].
    destruct (y <? 100)%f64; reflexivity.
Qed.

(** C2, amended. Within the record loop no row is drawn with the cursor
    below 100: before each row the cursor is tested and, when it is below
    100, a new page is started with [showPage], the font is set again and
    the row is drawn at the cursor reset to [height - 60] (on a page where
    [height - 60] is not below 100); otherwise the row is drawn at the
    cursor as it is. The loop starts as many new pages as it tests cursors
    below 100. The closing separator, the balance line and the two lines of
    the disclaimer are drawn without that test and without a new page, 10,
    25, 65 and 75 units below the cursor the loop leaves. In the fixed run,
    on the page 842 units high, the header and the separator (at 107) are
    not below 100. *)
Theorem rows_never_below_margin :
  forall (E : environment) (txs : list transaction) (y : float64),
    (snd (A4 E) - 60 <? 100)%f64 = false ->
    never_below_margin (calls_of (draw_rows E txs y)) = true
    /\ (forall date description amount rest cursor,
          calls_of (draw_rows E ((date, description, amount) :: rest) cursor)
          = let below := (cursor <? 100)%f64 in
            let y' := if below then (snd (A4 E) - 60)%f64 else cursor in
            (if below then [showPage; setFont (u "Helvetica") 9] else [])
              ++ [drawString 40 y' date;
                  drawString 100 y' (Py.slice_to 45 description);
                  drawRightString (fst (A4 E) - 40) y' (amount_str amount)]
              ++ calls_of (draw_rows E rest (y' - 15)%f64))
    /\ List.length (filter is_showPage (calls_of (draw_rows E txs y)))
       = List.length (filter (fun cursor => (cursor <? 100)%f64) (tested_cursors E txs y))
    /\ (forall y' : float64,
          flat_map drawn_at (calls_of (draw_footer E y'))
          = [y' - 10; y' - 10; y' - 25; y' - 25; y' - 25 - 40; y' - 25 - 40 - 10]%f64
          /\ filter is_showPage (calls_of (draw_footer E y')) = [])
    /\ (forall (created : str) (compensated : bool) (filename : str),
          let E0 := mkEnvironment true A4_points created compensated in
          never_below_margin (calls_of (draw_header E0 filename)) = true
          /\ never_below_margin (calls_of (draw_rows E0 transactions (first_cursor E0)))
             = true
          /\ flat_map drawn_at (calls_of (draw_footer E0 (last_cursor E0 transactions)))
             = map F64.of_int [107; 107; 92; 92; 52; 42]).
Proof.
  intros E txs y Htop. split; [| split; [| split; [| split]]].
  - unfold never_below_margin. rewrite calls_of_draw_rows.
    now apply above_margin_loop.
  - intros date description amount rest cursor; cbv zeta.
    rewrite !calls_of_draw_rows, spec_record_loop_cons; cbv zeta; cbn [fst].
    reflexivity.
  - rewrite calls_of_draw_rows. apply page_breaks_of_the_loop.
  - intros y'. split; reflexivity.
  - intros created compensated filename; cbv zeta.
    split_all; vm_compute; reflexivity.
Qed.

Lemma rows_never_below_margin_witness :
  never_below_margin
    (calls_of (draw_rows sample_environment thirty_five_records
                 (first_cursor sample_environment))) = true
  /\ List.length
       (filter is_showPage
          (calls_of (draw_rows sample_environment thirty_five_records
                       (first_cursor sample_environment)))) = 1%nat
  /\ nth_error
       (tested_cursors sample_environment thirty_five_records
          (first_cursor sample_environment)) 34
     = Some (F64.of_int 87).
Proof.
  pose proof (rows_never_below_margin sample_environment thirty_five_records
                (first_cursor sample_environment)) as H.
  refine ((fun K => conj (proj1 K)
                      (conj (eq_trans (proj1 (proj2 (proj2 K))) _) _))
            (H _)).
  - vm_compute. reflexivity.
  - vm_compute. reflexivity.
  - vm_compute. reflexivity.
Defined.

(** ** What the loop does not draw *)

Lemma filter_loop_nil (p : call -> bool) page (txs : list transaction) :
  p showPage = false ->
  (forall name size, p (setFont name size) = false) ->
  (forall x y text, p (drawRightString x y text) = false) ->
  (forall t x y, In t txs ->
                 p (drawString x y (date_of t)) = false
                 /\ p (drawString x y (firstn 45 (description_of t))) = false) ->
  forall y, filter p (fst (spec_record_loop page txs y)) = [].
Proof.
  intros Hpage Hfont Hright. induction txs as [| [[date description] amount] txs IH];
    intros Hleft y.
  - reflexivity.
  - rewrite spec_record_loop_cons; cbv zeta; cbn [fst].
    rewrite !filter_app, IH by (intros t x y' Hin; apply Hleft; now right).
    destruct (Hleft (date, description, amount) 40 (spec_row_cursor page y)
                (or_introl eq_refl)) as [Hdate _].
    destruct (Hleft (date, description, amount) 100 (spec_row_cursor page y)
                (or_introl eq_refl)) as [_ Hdescription].
    cbn [date_of description_of fst snd] in Hdate, Hdescription.
    cbn [filter]. rewrite Hdate, Hdescription, Hright.
    unfold spec_page_break.
    destruct (y <? spec_margin_threshold)%f64; cbn [filter];
      rewrite ?Hpage, ?Hfont; reflexivity.
Qed.

Lemma transactions_do_not_spell_the_label :
  forall t x y, In t transactions ->
                is_balance_label (drawString x y (date_of t)) = false
                /\ is_balance_label (drawString x y (firstn 45 (description_of t))) = false.
Proof.
  assert (H : forallb
                (fun t => negb (Py.str_eqb (date_of t) (u "Saldo / Balance:"))
                          && negb (Py.str_eqb (firstn 45 (description_of t))
                                     (u "Saldo / Balance:")))
                transactions = true) by (vm_compute; reflexivity).
  rewrite forallb_forall in H. intros t x y Hin.
  specialize (H t Hin). apply andb_true_iff in H as [Hd Hs].
  cbn [is_balance_label]. split; now apply negb_true_iff.
Qed.

Lemma balance_texts_loop page (txs : list transaction) :
  (forall t, In t txs ->
             Py.str_eqb (firstn 45 (description_of t)) (u "Saldo / Balance:") = false) ->
  forall y rest,
    balance_texts (fst (spec_record_loop page txs y) ++ rest) = balance_texts rest.
Proof.
  induction txs as [| [[date description] amount] txs IH]; intros Hdesc y rest.
  - reflexivity.
  - rewrite spec_record_loop_cons; cbv zeta; cbn [fst].
    rewrite <- !app_assoc. unfold spec_page_break.
    pose proof (Hdesc (date, description, amount) (or_introl eq_refl)) as Hd.
    cbn [description_of fst snd] in Hd.
    destruct (y <? spec_margin_threshold)%f64;
      cbn [app balance_texts]; rewrite Hd, IH by (intros t Hin; apply Hdesc; now right);
      reflexivity.
Qed.

Lemma files_written_skip (current : option str) (cs rest : list call) :
  filter is_Canvas cs = [] -> filter is_save cs = [] ->
  files_written current (cs ++ rest) = files_written current rest.
Proof.
  induction cs as [| c cs IH]; intros HC HS; [reflexivity |].
  destruct c; cbn in HC, HS; try discriminate; cbn [app files_written]; now apply IH.
Qed.

Lemma script_when_installed E :
  reportlab_installed E = true ->
  forall o, script E o = create_zkb_statement E default_filename o.
Proof.
  intros H o. unfold script, main, import_reportlab, try_except, bind.
  rewrite H. reflexivity.
Qed.

Lemma run_when_installed E :
  reportlab_installed E = true ->
  run E = (0, mkOutput (calls_of (create_zkb_statement E default_filename))
                (lines_of (print_summary E default_filename))).
Proof.
  intros H. unfold run. rewrite (script_when_installed E H).
  rewrite (create_zkb_statement_runs E default_filename empty_output).
  rewrite <- create_zkb_statement_draws. reflexivity.
Qed.



(** ** Two runs *)

Lemma draw_footer_ignores_the_clock installed page created1 created2 compensated y :
  draw_footer (mkEnvironment installed page created1 compensated) y
  = draw_footer (mkEnvironment installed page created2 compensated) y.
Proof. reflexivity. Qed.

Lemma print_summary_ignores_the_clock installed page created1 created2 compensated f :
  print_summary (mkEnvironment installed page created1 compensated) f
  = print_summary (mkEnvironment installed page created2 compensated) f.
Proof. reflexivity. Qed.

Lemma draw_header_around_the_timestamp installed page compensated f :
  exists before after,
    (forall created,
        calls_of (draw_header (mkEnvironment installed page created compensated) f)
        = before
            ++ drawString 40 (snd page - 180)%f64 (u "Erstellt / Created: " ++ created)
            :: after)
    /\ List.length before = 11%nat.
Proof.
  exists (firstn 11 (calls_of (draw_header
                                 (mkEnvironment installed page [] compensated) f))),
         (skipn 12 (calls_of (draw_header
                                (mkEnvironment installed page [] compensated) f))).
  split; [intros created |]; reflexivity.
Qed.

(** C8. Two runs that differ only in the date of the clock exit with the
    same status, print the same lines and make the same calls on the
    canvas, with the same coordinates and the same texts, except for one
    call: the one that draws the creation date, which is at the same place
    in both runs and differs in the date only. *)
Theorem two_runs_differ_in_the_timestamp_only :
  forall (installed : bool) (page : float64 * float64) (compensated : bool)
         (created1 created2 : str),
    let E1 := mkEnvironment installed page created1 compensated in
    let E2 := mkEnvironment installed page created2 compensated in
    fst (run E1) = fst (run E2)
    /\ stdout (snd (run E1)) = stdout (snd (run E2))
    /\ exists before after,
         canvas_calls (snd (run E1))
         = (if installed
            then before
                   ++ drawString 40 (snd page - 180)%f64
                        (u "Erstellt / Created: " ++ created1)
                   :: after
            else [])
         /\ canvas_calls (snd (run E2))
            = (if installed
               then before
                      ++ drawString 40 (snd page - 180)%f64
                           (u "Erstellt / Created: " ++ created2)
                      :: after
               else []).
Proof.
  intros [|] page compensated created1 created2; cbv zeta.
  - rewrite !run_when_installed by reflexivity. cbn [fst snd stdout canvas_calls].
    rewrite !create_zkb_statement_draws.
    rewrite (print_summary_ignores_the_clock true page created1 created2).
    split; [reflexivity |]. split; [reflexivity |].
    destruct (draw_header_around_the_timestamp true page compensated
                default_filename) as (before & after & Hheader & _).
    rewrite !Hheader.
    rewrite !last_cursor_spec. unfold first_cursor; cbn [A4].
    rewrite (draw_footer_ignores_the_clock true page created1 created2).
    eexists before, _. split; rewrite <- app_assoc; reflexivity.
  - split; [reflexivity |]. split; [reflexivity |].
    exists [], []. split; reflexivity.
Qed.

(** ** The summary *)

Lemma balance_texts_header E filename psfontname size rest :
  balance_texts (calls_of (draw_header E filename) ++ setFont psfontname size :: rest)
  = balance_texts rest.
Proof. reflexivity. Qed.

Lemma balance_texts_footer E y :
  balance_texts (calls_of (draw_footer E y) ++ [save])
  = [balance_str (compensated_sum E) transactions].
Proof. reflexivity. Qed.

Lemma balance_text_of_the_statement E filename :
  balance_texts (calls_of (create_zkb_statement E filename))
  = [balance_str (compensated_sum E) transactions].
Proof.
  rewrite create_zkb_statement_draws.
  change ([setFont (u "Helvetica") 9] ++ ?l) with (setFont (u "Helvetica") 9 :: l).
  rewrite balance_texts_header, balance_texts_loop; [apply balance_texts_footer |].
  intros t Hin.
  destruct (transactions_do_not_spell_the_label t 100 0 Hin) as [_ H]. exact H.
Qed.

(** C10. The summary printed after the document is saved reports the
    values of the document: the number of transactions is the length of the
    list of records, 32; the total income, the total of the expenses and
    the final balance are the values the balance line of the document is
    computed from, the balance being the income minus the expenses; each
    is printed after [CHF] with two decimals and apostrophes, and the
    balance is printed with the very text drawn on the balance line. *)
Theorem summary_reports_the_document :
  forall (E : environment) (filename : str),
    let c := compensated_sum E in
    lines_of (create_zkb_statement E filename)
    = [u "✅ Created: " ++ filename;
       [Py.newline] ++ u "Statement Summary:";
       u "  Period: January 2026";
       u "  Transactions: " ++ Py.str_of_nonneg (Z.of_nat (List.length transactions));
       u "  Total Income: CHF " ++ swiss_2f (total_income c transactions);
       u "  Total Expenses: CHF " ++ swiss_2f (total_expenses c transactions);
       u "  Final Balance: " ++ balance_str c transactions;
       [Py.newline] ++ u "Use this PDF to test the ZüriBudget app!"]
    /\ balance_texts (calls_of (create_zkb_statement E filename))
       = [balance_str c transactions]
    /\ balance_str c transactions = u "CHF " ++ swiss_2f (final_balance c transactions)
    /\ final_balance c transactions
       = (total_income c transactions - total_expenses c transactions)%f64
    /\ u "  Transactions: " ++ Py.str_of_nonneg (Z.of_nat (List.length transactions))
       = u "  Transactions: 32"
    /\ u "  Total Income: CHF " ++ swiss_2f (total_income c transactions)
       = u "  Total Income: CHF 7'500.00"
    /\ u "  Total Expenses: CHF " ++ swiss_2f (total_expenses c transactions)
       = u "  Total Expenses: CHF 4'803.60"
    /\ u "  Final Balance: " ++ balance_str c transactions
       = u "  Final Balance: CHF 2'696.40".
Proof.
  intros E filename; cbv zeta. split.
  { destruct (runs_observed _ _ _ _ (create_zkb_statement_runs E filename))
      as (_ & _ & Hlines).
    rewrite Hlines. destruct E as [installed page created [|]]; vm_compute; reflexivity. }
  split; [apply balance_text_of_the_statement |].
  destruct (compensated_sum E); split_all; vm_compute; reflexivity.
Qed.

(** C3: the run without the drawing library. The import of line 12 raises
    [ImportError] before the [__main__] block is reached: the run ends with
    status 1, from the uncaught exception, and with nothing printed on the
    standard output and nothing drawn; the check of the [__main__] block,
    which on its own would print the three lines of advice and exit with
    status 1, is never run. With the library installed the run ends with
    status 0. *)
Theorem missing_library_stops_at_the_first_import :
  forall (page : float64 * float64) (created : str) (compensated : bool),
    let E := mkEnvironment false page created compensated in
    script E empty_output = (Raise ImportError, empty_output)
    /\ run E = (1, empty_output)
    /\ main E empty_output
       = (Raise (SystemExit 1),
          mkOutput []
            [u "❌ Error: reportlab not installed";
             [Py.newline] ++ u "Install it with:";
             u "  pip3 install reportlab"])
    /\ fst (run (mkEnvironment true page created compensated)) = 0.
Proof.
  intros page created compensated; cbv zeta.
  split; [reflexivity |]. split; [reflexivity |]. split; [reflexivity |].
  now rewrite run_when_installed.
Qed.

(** * Further properties of the loop, the formats and the totals *)

(** ** The loop over a list in two parts *)

Lemma spec_record_loop_app page (l1 l2 : list transaction) :
  forall y,
    spec_record_loop page (l1 ++ l2) y
    = (fst (spec_record_loop page l1 y)
         ++ fst (spec_record_loop page l2 (snd (spec_record_loop page l1 y))),
       snd (spec_record_loop page l2 (snd (spec_record_loop page l1 y)))).
Proof.
  induction l1 as [| [[date description] amount] l1 IH]; intros y.
  - cbn [app spec_record_loop fst snd]. now destruct (spec_record_loop page l2 y).
  - change (((date, description, amount) :: l1) ++ l2)
      with ((date, description, amount) :: (l1 ++ l2)).
    rewrite !spec_record_loop_cons; cbv zeta; cbn [fst snd].
    rewrite IH; cbn [fst snd]. now rewrite <- !app_assoc.
Qed.

Lemma cursor_after_spec E (txs : list transaction) (y : float64) :
  cursor_after E txs y = snd (spec_record_loop (A4 E) txs y).
Proof.
  unfold cursor_after.
  now destruct (runs_observed _ _ _ _ (draw_rows_runs E txs y)) as (-> & _).
Qed.

(** X1. The loop over a list made of two parts draws what it draws for the
    first part, followed by what it draws for the second part from the
    cursor the first part leaves, and leaves the cursor the second part
    leaves. *)
Theorem rows_of_two_parts :
  forall (E : environment) (l1 l2 : list transaction) (y : float64),
    calls_of (draw_rows E (l1 ++ l2) y)
    = calls_of (draw_rows E l1 y) ++ calls_of (draw_rows E l2 (cursor_after E l1 y))
    /\ cursor_after E (l1 ++ l2) y = cursor_after E l2 (cursor_after E l1 y)
    /\ lines_of (draw_rows E (l1 ++ l2) y) = [].
Proof.
  intros E l1 l2 y.
  rewrite !cursor_after_spec, !calls_of_draw_rows, spec_record_loop_app.
  cbn [fst snd]. split; [reflexivity |]. split; [reflexivity |].
  now destruct (runs_observed _ _ _ _ (draw_rows_runs E (l1 ++ l2) y)) as (_ & _ & ->).
Qed.

(** ** The layout does not depend on what the records hold *)

Lemma layout_loop page (txs : list transaction) :
  forall txs' y,
    List.length txs = List.length txs' ->
    map layout_of (fst (spec_record_loop page txs y))
    = map layout_of (fst (spec_record_loop page txs' y))
    /\ snd (spec_record_loop page txs y) = snd (spec_record_loop page txs' y).
Proof.
  induction txs as [| [[date description] amount] txs IH];
    intros [| [[date' description'] amount'] txs'] y Hlen; try discriminate Hlen.
  - split; reflexivity.
  - rewrite !spec_record_loop_cons; cbv zeta; cbn [fst snd].
    injection Hlen as Hlen.
    destruct (IH txs' (spec_row_cursor page y - spec_row_height)%f64 Hlen) as [Hc Hy].
    rewrite !map_app, Hc, Hy. split; reflexivity.
Qed.

Lemma tested_cursors_same E (txs : list transaction) :
  forall txs' y,
    List.length txs = List.length txs' ->
    tested_cursors E txs y = tested_cursors E txs' y.
Proof.
  induction txs as [| [[date description] amount] txs IH];
    intros [| [[date' description'] amount'] txs'] y Hlen; try discriminate Hlen.
  - reflexivity.
  - injection Hlen as Hlen. cbn [tested_cursors].
    rewrite !value_of_draw_row. f_equal. now apply IH.
Qed.

(** X2. Where the loop draws, the pages it starts and the cursors it tests
    depend on the number of the records only: two lists of the same length
    give the same calls up to the texts drawn, and leave the same cursor.
    No description and no amount, whatever its length, moves a row. *)
Theorem layout_depends_on_the_number_of_records :
  forall (E : environment) (txs txs' : list transaction) (y : float64),
    List.length txs = List.length txs' ->
    map layout_of (calls_of (draw_rows E txs y))
    = map layout_of (calls_of (draw_rows E txs' y))
    /\ tested_cursors E txs y = tested_cursors E txs' y
    /\ cursor_after E txs y = cursor_after E txs' y.
Proof.
  intros E txs txs' y Hlen.
  rewrite !cursor_after_spec, !calls_of_draw_rows.
  destruct (layout_loop (A4 E) txs txs' y Hlen) as [Hc Hy].
  split; [exact Hc |]. split; [now apply tested_cursors_same | exact Hy].
Qed.

Lemma layout_depends_on_the_number_of_records_witness :
  map layout_of (calls_of (draw_rows sample_environment [long_record] 597))
  = map layout_of (calls_of (draw_rows sample_environment (firstn 1 transactions) 597))
  /\ tested_cursors sample_environment [long_record] 597
     = tested_cursors sample_environment (firstn 1 transactions) 597
  /\ cursor_after sample_environment [long_record] 597
     = cursor_after sample_environment (firstn 1 transactions) 597.
Proof.
  apply (layout_depends_on_the_number_of_records sample_environment
           [long_record] (firstn 1 transactions) 597).
  vm_compute. reflexivity.
Defined.

(** ** How many rows fit on the first page *)

Lemma filter_showPage_layout (cs : list call) :
  filter is_showPage (map layout_of cs) = map layout_of (filter is_showPage cs).
Proof.
  induction cs as [| c cs IH]; [reflexivity |].
  destruct c; cbn [map layout_of filter is_showPage]; rewrite IH; reflexivity.
Qed.

Section FirstPage.

Variable E : environment.

Hypothesis no_break_in_34 :
  forallb
    (fun n =>
       match filter is_showPage
               (calls_of (draw_rows E (repeat blank_record n) (first_cursor E))) with
       | [] => true
       | _ => false
       end)
    (seq 0 35) = true.

Hypothesis below_after_34 :
  (cursor_after E (repeat blank_record 34) (first_cursor E) <? 100)%f64 = true.

Lemma no_page_break_up_to_34 (txs : list transaction) :
  (List.length txs <= 34)%nat ->
  filter is_showPage (calls_of (draw_rows E txs (first_cursor E))) = [].
Proof.
  intros Hlen.
  assert (Hn : In (List.length txs) (seq 0 35)) by (apply in_seq; lia).
  pose proof (proj1 (forallb_forall _ _) no_break_in_34 _ Hn) as Hblank.
  cbv beta in Hblank.
  destruct (filter is_showPage
              (calls_of (draw_rows E (repeat blank_record (List.length txs))
                           (first_cursor E)))) eqn:Hfilter; [| discriminate Hblank].
  destruct (layout_depends_on_the_number_of_records E txs
              (repeat blank_record (List.length txs)) (first_cursor E))
    as (Hlayout & _); [now rewrite repeat_length |].
  apply (f_equal (filter is_showPage)) in Hlayout.
  rewrite !filter_showPage_layout, Hfilter in Hlayout.
  now apply map_eq_nil in Hlayout.
Qed.

Lemma page_break_before_row_35 (txs : list transaction) date description amount :
  nth_error txs 34 = Some (date, description, amount) ->
  exists before after,
    calls_of (draw_rows E txs (first_cursor E))
    = before
        ++ [showPage; setFont (u "Helvetica") 9;
            drawString 40 (snd (A4 E) - 60)%f64 date;
            drawString 100 (snd (A4 E) - 60)%f64 (Py.slice_to 45 description);
            drawRightString (fst (A4 E) - 40)%f64 (snd (A4 E) - 60)%f64
              (amount_str amount)]
        ++ after
    /\ filter is_showPage before = []
    /\ List.length (rows_drawn before) = 34%nat.
Proof.
  intros Hnth. apply nth_error_split in Hnth as (l1 & l2 & -> & Hlen).
  destruct (rows_of_two_parts E l1 ((date, description, amount) :: l2) (first_cursor E))
    as (Hcalls & _).
  exists (calls_of (draw_rows E l1 (first_cursor E))),
         (calls_of (draw_rows E l2
                      (snd (A4 E) - 60 - 15)%f64)).
  split; [| split].
  - refine (eq_trans Hcalls _). f_equal.
    destruct (layout_depends_on_the_number_of_records E l1 (repeat blank_record 34)
                (first_cursor E)) as (_ & _ & Hcursor); [now rewrite repeat_length |].
    rewrite Hcursor.
    rewrite !calls_of_draw_rows, spec_record_loop_cons; cbv zeta; cbn [fst].
    unfold spec_page_break, spec_row_cursor, spec_margin_threshold, spec_top_offset,
      spec_row_height, Py.slice_to.
    rewrite below_after_34. reflexivity.
  - apply no_page_break_up_to_34. unfold transaction in *. lia.
  - rewrite rows_of_the_loop, length_map. exact Hlen.
Qed.

End FirstPage.

(** X3. On the A4 page (842 units high, or as the drawing library computes
    it) the loop starts no new page for a list of at most 34 records: the
    first page holds 34 rows. *)
Theorem first_page_holds_34_rows :
  forall (installed : bool) (created : str) (compensated : bool)
         (txs : list transaction),
    (List.length txs <= 34)%nat ->
    let E := mkEnvironment installed A4_points created compensated in
    let E' := mkEnvironment installed A4_millimetres created compensated in
    filter is_showPage (calls_of (draw_rows E txs (first_cursor E))) = []
    /\ filter is_showPage (calls_of (draw_rows E' txs (first_cursor E'))) = [].
Proof.
  intros installed created compensated txs Hlen; cbv zeta.
  split; (apply no_page_break_up_to_34; [vm_compute; reflexivity | exact Hlen]).
Qed.

Lemma first_page_holds_34_rows_witness :
  filter is_showPage
    (calls_of (draw_rows sample_environment transactions
                 (first_cursor sample_environment))) = [].
Proof.
  refine (proj1 (first_page_holds_34_rows true (u "04.11.2026") false transactions _)).
  vm_compute. lia.
Defined.

(** X4. On the A4 page, when the list has 35 records or more, the 35th is
    the first row of a second page: after the 34 rows of the first page,
    which has no page break, the loop calls [showPage], sets the font again
    and draws the 35th record at [height - 60], and goes on from
    [height - 75]. *)
Theorem row_35_opens_the_second_page :
  forall (installed : bool) (created : str) (compensated : bool)
         (txs : list transaction) (date description : str) (amount : float64),
    nth_error txs 34 = Some (date, description, amount) ->
    let E := mkEnvironment installed A4_points created compensated in
    let E' := mkEnvironment installed A4_millimetres created compensated in
    (exists before after,
        calls_of (draw_rows E txs (first_cursor E))
        = before
            ++ [showPage; setFont (u "Helvetica") 9;
                drawString 40 782 date;
                drawString 100 782 (Py.slice_to 45 description);
                drawRightString 555 782 (amount_str amount)]
            ++ after
        /\ filter is_showPage before = []
        /\ List.length (rows_drawn before) = 34%nat)
    /\ (exists before after,
           calls_of (draw_rows E' txs (first_cursor E'))
           = before
               ++ [showPage; setFont (u "Helvetica") 9;
                   drawString 40 (snd A4_millimetres - 60)%f64 date;
                   drawString 100 (snd A4_millimetres - 60)%f64
                     (Py.slice_to 45 description);
                   drawRightString (fst A4_millimetres - 40)%f64
                     (snd A4_millimetres - 60)%f64 (amount_str amount)]
               ++ after
           /\ filter is_showPage before = []
           /\ List.length (rows_drawn before) = 34%nat).
Proof.
  intros installed created compensated txs date description amount Hnth; cbv zeta.
  split.
  - destruct (page_break_before_row_35
                (mkEnvironment installed A4_points created compensated)
                ltac:(vm_compute; reflexivity) ltac:(vm_compute; reflexivity)
                txs date description amount Hnth)
      as (before & after & Hcalls & Hbreak & Hrows).
    exists before, after. split; [| split; assumption].
    rewrite Hcalls. cbn [A4 fst snd].
    replace (snd A4_points - 60)%f64 with (F64.of_int 782) by (vm_compute; reflexivity).
    replace (fst A4_points - 40)%f64 with (F64.of_int 555) by (vm_compute; reflexivity).
    reflexivity.
  - exact (page_break_before_row_35
             (mkEnvironment installed A4_millimetres created compensated)
             ltac:(vm_compute; reflexivity) ltac:(vm_compute; reflexivity)
             txs date description amount Hnth).
Qed.

Lemma row_35_opens_the_second_page_witness :
  exists before after,
    calls_of (draw_rows sample_environment thirty_five_records
                (first_cursor sample_environment))
    = before
        ++ [showPage; setFont (u "Helvetica") 9;
            drawString 40 782 (u "29.01.2026");
            drawString 100 782 (Py.slice_to 45 (u "CSS Krankenkasse Prämie"));
            drawRightString 555 782 (amount_str (F64.lit 456.90))]
        ++ after
    /\ filter is_showPage before = []
    /\ List.length (rows_drawn before) = 34%nat.
Proof.
  refine (proj1 (row_35_opens_the_second_page true (u "04.11.2026") false
                   thirty_five_records (u "29.01.2026")
                   (u "CSS Krankenkasse Prämie") (F64.lit 456.90) _)).
  vm_compute. reflexivity.
Defined.

(** ** The vertical positions of the rows and of the footer *)

Lemma same_float_eq (x y : float64) : same_float x y = true -> x = y.
Proof.
  destruct x as [s | s | | s m e], y as [s' | s' | | s' m' e']; cbn [same_float];
    intros H; try discriminate H; try reflexivity.
  - now apply Bool.eqb_prop in H as ->.
  - now apply Bool.eqb_prop in H as ->.
  - apply andb_true_iff in H as [H He]. apply andb_true_iff in H as [Hs Hm].
    apply Bool.eqb_prop in Hs as ->. apply Pos.eqb_eq in Hm as ->.
    now apply Z.eqb_eq in He as ->.
Qed.

Section OnThePage.

Variable E : environment.

(** A list of cursors that holds the first one and the next of each. *)
Variable cursors : list float64.

Hypothesis starts_inside : existsb (same_float (first_cursor E)) cursors = true.

Hypothesis closed :
  forallb
    (fun y =>
       existsb (same_float (spec_row_cursor (A4 E) y - spec_row_height)%f64) cursors)
    cursors = true.

Hypothesis rows_inside :
  forallb
    (fun y =>
       (spec_row_cursor (A4 E) y >=? 100)%f64
       && (snd (A4 E) - 60 >=? spec_row_cursor (A4 E) y)%f64)
    cursors = true.

Hypothesis footer_inside :
  forallb
    (fun y => forallb (drawn_between 10 (snd (A4 E))) (calls_of (draw_footer E y)))
    cursors = true.

Lemma in_cursors (y : float64) : existsb (same_float y) cursors = true -> In y cursors.
Proof.
  intros H. apply existsb_exists in H as (z & Hz & Hsame).
  now apply same_float_eq in Hsame as ->.
Qed.

Lemma loop_stays_inside (txs : list transaction) :
  forall y,
    In y cursors ->
    forallb (drawn_between 100 (snd (A4 E) - 60)%f64)
      (fst (spec_record_loop (A4 E) txs y)) = true
    /\ In (snd (spec_record_loop (A4 E) txs y)) cursors.
Proof.
  induction txs as [| [[date description] amount] txs IH]; intros y Hy.
  - split; [reflexivity | exact Hy].
  - rewrite spec_record_loop_cons; cbv zeta; cbn [fst snd].
    pose proof (proj1 (forallb_forall _ _) rows_inside y Hy) as Hrow.
    pose proof (proj1 (forallb_forall _ _) closed y Hy) as Hnext.
    cbv beta in Hrow, Hnext. apply in_cursors in Hnext.
    destruct (IH _ Hnext) as [IHc IHy].
    split; [| exact IHy].
    rewrite !forallb_app, IHc, andb_true_r.
    cbn [forallb drawn_between drawn_at]. rewrite Hrow.
    unfold spec_page_break.
    destruct (y <? spec_margin_threshold)%f64; reflexivity.
Qed.

Lemma rows_and_footer_inside (txs : list transaction) :
  forallb (drawn_between 100 (snd (A4 E) - 60)%f64)
    (calls_of (draw_rows E txs (first_cursor E))) = true
  /\ forallb (drawn_between 10 (snd (A4 E)))
       (calls_of (draw_footer E (cursor_after E txs (first_cursor E)))) = true.
Proof.
  destruct (loop_stays_inside txs (first_cursor E) (in_cursors _ starts_inside))
    as [Hrows Hlast].
  rewrite calls_of_draw_rows, cursor_after_spec. split; [exact Hrows |].
  exact (proj1 (forallb_forall _ _) footer_inside _ Hlast).
Qed.

End OnThePage.

(** X5. On the A4 page (842 units high, or as the drawing library computes
    it), whatever the list of records and however many pages it takes, the
    vertical position of every row is between 100 and [height - 60], and
    the vertical positions of the separator, the balance line and the
    disclaimer that follow the last row are between 10 and the height of
    the page: the 100 units the loop keeps free at the bottom of a page
    always hold the footer. This bounds the vertical positions only; how
    far a text reaches to the left or right is not stated. *)
Theorem rows_and_footer_vertical_bounds :
  forall (installed : bool) (created : str) (compensated : bool)
         (txs : list transaction),
    let E := mkEnvironment installed A4_points created compensated in
    let E' := mkEnvironment installed A4_millimetres created compensated in
    forallb (drawn_between 100 782) (calls_of (draw_rows E txs (first_cursor E))) = true
    /\ forallb (drawn_between 10 842)
         (calls_of (draw_footer E (cursor_after E txs (first_cursor E)))) = true
    /\ forallb (drawn_between 100 (snd A4_millimetres - 60)%f64)
         (calls_of (draw_rows E' txs (first_cursor E'))) = true
    /\ forallb (drawn_between 10 (snd A4_millimetres))
         (calls_of (draw_footer E' (cursor_after E' txs (first_cursor E')))) = true.
Proof.
  intros installed created compensated txs; cbv zeta.
  pose proof (rows_and_footer_inside
                (mkEnvironment installed A4_points created compensated)
                (cursor_orbit (mkEnvironment installed A4_points created compensated) 81)
                ltac:(vm_compute; reflexivity) ltac:(vm_compute; reflexivity)
                ltac:(vm_compute; reflexivity) ltac:(vm_compute; reflexivity) txs)
    as [Hrows Hfooter].
  pose proof (rows_and_footer_inside
                (mkEnvironment installed A4_millimetres created compensated)
                (cursor_orbit (mkEnvironment installed A4_millimetres created compensated)
                   81)
                ltac:(vm_compute; reflexivity) ltac:(vm_compute; reflexivity)
                ltac:(vm_compute; reflexivity) ltac:(vm_compute; reflexivity) txs)
    as [Hrows' Hfooter'].
  cbn [A4 snd] in Hrows, Hfooter, Hrows', Hfooter'.
  replace (snd A4_points - 60)%f64 with (F64.of_int 782) in Hrows
    by (vm_compute; reflexivity).
  change (snd A4_points) with (F64.of_int 842) in Hfooter.
  split_all; assumption.
Qed.

(** ** The sign of the balance and of the amounts *)

Lemma format_of_negative (x : float64) :
  is_negative x = true ->
  F64.format_comma_2f x = Py.minus :: F64.format_comma_2f (F64.abs x).
Proof.
  destruct x as [[|] | [|] | | [|] m e]; intros H; try discriminate H; reflexivity.
Qed.

(** X6. The balance line keeps the sign that the amount column drops: when
    the final balance is negative (the expenses exceed the income) it is
    drawn as [CHF -] followed by its absolute value with two decimals and
    apostrophes. *)
Theorem negative_balance_is_drawn_with_a_minus :
  forall (compensated : bool) (txs : list transaction),
    is_negative (final_balance compensated txs) = true ->
    balance_str compensated txs
    = u "CHF -" ++ swiss_2f (F64.abs (final_balance compensated txs))
    /\ unsigned (swiss_2f (F64.abs (final_balance compensated txs))) = true.
Proof.
  intros compensated txs Hneg. split.
  - unfold balance_str, swiss_2f, Py.replace.
    rewrite (format_of_negative _ Hneg), map_app. reflexivity.
  - assert (Habs : is_negative_zero (F64.abs (final_balance compensated txs)) = false)
      by now destruct (final_balance compensated txs) as [[|] | [|] | | [|] m e].
    pose proof (amount_str_unsigned _ Habs) as Hu.
    rewrite (amount_str_of_abs _ Habs) in Hu.
    now destruct (final_balance compensated txs) as [[|] | [|] | | [|] m e].
Qed.

Lemma negative_balance_is_drawn_with_a_minus_witness :
  balance_str false (skipn 1 transactions) = u "CHF -4'803.60"
  /\ balance_str false (skipn 1 transactions)
     = u "CHF -" ++ swiss_2f (F64.abs (final_balance false (skipn 1 transactions))).
Proof.
  split; [vm_compute; reflexivity |].
  refine (proj1 (negative_balance_is_drawn_with_a_minus false (skipn 1 transactions) _)).
  vm_compute. reflexivity.
Defined.

(** X7. The amount column does not tell a credit from a debit: an amount
    and its opposite, when they are not zero, are drawn with the same
    text. *)
Theorem amount_and_its_opposite_are_drawn_alike :
  forall amount : float64,
    is_zero amount = false ->
    amount_str (SFopp amount) = amount_str amount.
Proof.
  intros [[|] | [|] | | [|] m e] H; try discriminate H; reflexivity.
Qed.

Lemma amount_and_its_opposite_are_drawn_alike_witness :
  amount_str (SFopp (F64.lit 1850.00)) = amount_str (F64.lit 1850.00)
  /\ amount_str (F64.lit 1850.00) = u "1'850.00".
Proof.
  split; [| vm_compute; reflexivity].
  apply (amount_and_its_opposite_are_drawn_alike (F64.lit 1850.00)).
  vm_compute. reflexivity.
Defined.

(** ** Records that count in neither total *)

Lemma neither_negative_nor_positive (amount : float64) :
  is_zero_or_nan amount = true ->
  (amount <? 0)%f64 = false /\ (0 <? amount)%f64 = false.
Proof.
  destruct amount as [[|] | [|] | | [|] m e]; intros H; try discriminate H;
    split; reflexivity.
Qed.

(** X8. A record whose amount is zero (of either sign) or not a number is
    drawn as a row like any other, and counts in neither total: with or
    without it, the total income, the total of the expenses and the final
    balance are the same. *)
Theorem record_of_zero_counts_in_neither_total :
  forall (E : environment) (compensated : bool) (l1 l2 : list transaction)
         (date description : str) (amount y : float64),
    is_zero_or_nan amount = true ->
    total_income compensated (l1 ++ (date, description, amount) :: l2)
    = total_income compensated (l1 ++ l2)
    /\ total_expenses compensated (l1 ++ (date, description, amount) :: l2)
       = total_expenses compensated (l1 ++ l2)
    /\ final_balance compensated (l1 ++ (date, description, amount) :: l2)
       = final_balance compensated (l1 ++ l2)
    /\ rows_drawn (calls_of (draw_rows E (l1 ++ (date, description, amount) :: l2) y))
       = map rendered l1
           ++ (date, Py.slice_to 45 description, amount_str amount)
           :: map rendered l2.
Proof.
  intros E compensated l1 l2 date description amount y Hzero.
  destruct (neither_negative_nor_positive amount Hzero) as [Hneg Hpos].
  assert (Hincome : total_income compensated (l1 ++ (date, description, amount) :: l2)
                    = total_income compensated (l1 ++ l2)).
  { unfold total_income. rewrite !filter_app. cbn [filter]. now rewrite Hneg. }
  assert (Hexpenses : total_expenses compensated (l1 ++ (date, description, amount) :: l2)
                      = total_expenses compensated (l1 ++ l2)).
  { unfold total_expenses. rewrite !filter_app. cbn [filter]. now rewrite Hpos. }
  split; [exact Hincome |]. split; [exact Hexpenses |]. split.
  - unfold final_balance. now rewrite Hincome, Hexpenses.
  - rewrite rows_of_the_loop, map_app. reflexivity.
Qed.

Lemma record_of_zero_counts_in_neither_total_witness :
  total_income false (firstn 1 transactions ++ (u "01.02.2026", u "Storno", F64.lit 0.00)
                        :: skipn 1 transactions)
  = total_income false transactions
  /\ final_balance false (firstn 1 transactions
                            ++ (u "01.02.2026", u "Storno", F64.lit 0.00)
                            :: skipn 1 transactions)
     = final_balance false transactions.
Proof.
  pose proof (record_of_zero_counts_in_neither_total sample_environment false
                (firstn 1 transactions) (skipn 1 transactions)
                (u "01.02.2026") (u "Storno") (F64.lit 0.00) 597) as H.
  refine ((fun K => conj (proj1 K) (proj1 (proj2 (proj2 K)))) (H _)).
  vm_compute. reflexivity.
Defined.

(** ** The file name *)

Lemma header_after_the_canvas E filename rest :
  calls_of (draw_header E filename) ++ rest
  = Canvas filename (A4 E) :: tl (calls_of (draw_header E default_filename)) ++ rest.
Proof. reflexivity. Qed.

Lemma summary_after_the_first_line E filename :
  lines_of (print_summary E filename)
  = (u "✅ Created: " ++ filename) :: tl (lines_of (print_summary E default_filename)).
Proof. reflexivity. Qed.

(** With a [save] that succeeds, the file name is the name of the file
    written and of the first line of the summary, and of nothing else. *)
Lemma file_name_when_saved :
  forall (E : environment) (filename : str),
    files_written None (calls_of (create_zkb_statement E filename)) = [filename]
    /\ hd_error (calls_of (create_zkb_statement E filename))
       = Some (Canvas filename (A4 E))
    /\ hd_error (lines_of (create_zkb_statement E filename))
       = Some (u "✅ Created: " ++ filename)
    /\ tl (calls_of (create_zkb_statement E filename))
       = tl (calls_of (create_zkb_statement E default_filename))
    /\ tl (lines_of (create_zkb_statement E filename))
       = tl (lines_of (create_zkb_statement E default_filename)).
Proof.
  intros E filename.
  pose proof (filter_loop_nil is_Canvas (A4 E) transactions eq_refl
                (fun _ _ => eq_refl) (fun _ _ _ => eq_refl)
                (fun _ _ _ _ => conj eq_refl eq_refl) (first_cursor E)) as HC.
  pose proof (filter_loop_nil is_save (A4 E) transactions eq_refl
                (fun _ _ => eq_refl) (fun _ _ _ => eq_refl)
                (fun _ _ _ _ => conj eq_refl eq_refl) (first_cursor E)) as HS.
  destruct (runs_observed _ _ _ _ (create_zkb_statement_runs E filename))
    as (_ & _ & Hlines).
  destruct (runs_observed _ _ _ _ (create_zkb_statement_runs E default_filename))
    as (_ & _ & Hlines').
  rewrite Hlines, Hlines', !create_zkb_statement_draws.
  rewrite (header_after_the_canvas E filename),
    (header_after_the_canvas E default_filename),
    (summary_after_the_first_line E filename).
  split; [| split_all; reflexivity].
  cbn [files_written].
  change (tl (calls_of (draw_header E default_filename)) ++ ?l)
    with (tl (calls_of (draw_header E default_filename) ++ l)).
  change (files_written (Some filename)
            (tl (calls_of (draw_header E default_filename)
                   ++ [setFont (u "Helvetica") 9] ++ ?l)))
    with (files_written (Some filename) l).
  rewrite (files_written_skip _ _ _ HC HS). reflexivity.
Qed.

Lemma files_written_without_save (current : option str) (cs : list call) :
  filter is_save cs = [] -> files_written current cs = [].
Proof.
  revert current. induction cs as [| c cs IH]; intros current HS; [reflexivity |].
  destruct c; cbn in HS; try discriminate; cbn [files_written]; now apply IH.
Qed.

Lemma bind_after {A B} (m : M A) (k : A -> M B) a cs ls o :
  runs m a cs ls -> bind m k o = k a (followed_by o (mkOutput cs ls)).
Proof. intros H. unfold bind. now rewrite (H o). Qed.

Lemma create_zkb_statement_on_unwritable writable E filename :
  writable filename = false ->
  create_zkb_statement_on writable E filename empty_output
  = (Raise OSError,
     mkOutput (removelast (calls_of (create_zkb_statement E filename))) []).
Proof.
  intros Hw. unfold create_zkb_statement_on.
  rewrite (bind_after _ _ _ _ _ _ (draw_header_runs E filename)); cbv zeta.
  rewrite (bind_after _ _ _ _ _ _ (runs_c_ _)).
  rewrite (bind_after _ _ _ _ _ _ (draw_rows_runs E transactions _)).
  rewrite (bind_after _ _ _ _ _ _ (draw_footer_runs E _)).
  unfold save_canvas. rewrite Hw. unfold bind, raise. f_equal.
  rewrite create_zkb_statement_draws, last_cursor_spec.
  unfold followed_by, first_cursor; cbn [canvas_calls stdout empty_output].
  f_equal. rewrite app_nil_l, !app_assoc. now rewrite removelast_last.
Qed.



(** ** The shape of an amount *)

Lemma forallb_rev_true (P : N -> bool) (s : str) :
  forallb P s = true -> forallb P (rev s) = true.
Proof.
  rewrite !forallb_forall. intros H ch Hin. apply H. now apply in_rev.
Qed.

Lemma forallb_group_rev (P : N -> bool) (n : nat) :
  P Py.comma = true ->
  forall ds, (List.length ds <= n)%nat ->
             forallb P ds = true -> forallb P (F64.group_rev ds) = true.
Proof.
  intros Hcomma. induction n as [| n IH]; intros ds Hlen Hds.
  - destruct ds; [reflexivity | simpl in Hlen; lia].
  - destruct ds as [| a [| b [| c [| d rest]]]]; try exact Hds.
    change (F64.group_rev (a :: b :: c :: d :: rest))
      with ([a; b; c] ++ [Py.comma] ++ F64.group_rev (d :: rest)).
    change (a :: b :: c :: d :: rest) with ([a; b; c] ++ d :: rest) in Hds.
    rewrite forallb_app in Hds. rewrite !forallb_app.
    apply andb_true_iff in Hds as [Habc Hrest].
    rewrite Habc, IH; [| simpl in *; lia | exact Hrest].
    cbn [forallb]. now rewrite Hcomma.
Qed.

Lemma length_group_rev (n : nat) :
  forall ds, (List.length ds <= n)%nat ->
             (List.length ds <= List.length (F64.group_rev ds))%nat.
Proof.
  induction n as [| n IH]; intros ds Hlen.
  - destruct ds; [apply Nat.le_refl | simpl in Hlen; lia].
  - destruct ds as [| a [| b [| c [| d rest]]]]; try apply Nat.le_refl.
    change (F64.group_rev (a :: b :: c :: d :: rest))
      with (a :: b :: c :: Py.comma :: F64.group_rev (d :: rest)).
    assert (Hrest : (List.length (d :: rest) <= n)%nat) by (simpl in *; lia).
    specialize (IH (d :: rest) Hrest). simpl in *. lia.
Qed.

Lemma digits_uint_chars (d : Decimal.uint) : forallb is_digit (Py.uint_chars d) = true.
Proof. induction d; cbn; auto. Qed.

Lemma str_of_nonneg_not_empty (n : Z) : (0 < List.length (Py.str_of_nonneg n))%nat.
Proof.
  unfold Py.str_of_nonneg. destruct (Z.to_N n) as [| p]; [cbn; lia |].
  cbn [N.to_uint]. pose proof (DecimalPos.Unsigned.to_uint_nonnil p) as Hnil.
  destruct (Pos.to_uint p); [contradiction | | | | | | | | | |]; cbn; lia.
Qed.

Lemma apostrophes_for_commas (s : str) :
  forallb (fun ch => is_digit ch || (ch =? Py.comma)%N) s = true ->
  forallb is_digit_or_apostrophe (Py.replace Py.comma Py.apostrophe s) = true.
Proof.
  unfold Py.replace. induction s as [| ch s IH]; [reflexivity |].
  cbn [map forallb]. intros H. apply andb_true_iff in H as [Hch Hs].
  rewrite IH by exact Hs. unfold is_digit_or_apostrophe.
  destruct (ch =? Py.comma)%N; [reflexivity |].
  rewrite orb_false_r in Hch. now rewrite Hch.
Qed.

Lemma one_digit (k : Z) :
  0 <= k <= 9 ->
  exists d, Py.str_of_nonneg k = [d]
            /\ is_digit d = true
            /\ Py.replace Py.comma Py.apostrophe [d] = [d].
Proof.
  intros Hk. exists (48 + Z.to_N k)%N.
  assert (H : k = 0 \/ k = 1 \/ k = 2 \/ k = 3 \/ k = 4 \/ k = 5 \/ k = 6 \/ k = 7
              \/ k = 8 \/ k = 9) by lia.
  repeat (destruct H as [-> | H]; [split_all; vm_compute; reflexivity |]).
  subst k. split_all; vm_compute; reflexivity.
Qed.

Lemma shape_of_fixed_2 (h : Z) :
  exists int_part d1 d2,
    Py.replace Py.comma Py.apostrophe (F64.fixed_2 h) = int_part ++ [Py.full_stop; d1; d2]
    /\ (0 < List.length int_part)%nat
    /\ forallb is_digit_or_apostrophe int_part = true
    /\ is_digit d1 = true
    /\ is_digit d2 = true.
Proof.
  assert (Hr : 0 <= h mod 100 < 100) by (apply Z.mod_pos_bound; lia).
  destruct (one_digit ((h mod 100) / 10)) as (d1 & Hd1 & Hdigit1 & Hsame1).
  { split; [apply Z.div_pos; lia | apply Z.lt_succ_r, Z.div_lt_upper_bound; lia]. }
  destruct (one_digit ((h mod 100) mod 10)) as (d2 & Hd2 & Hdigit2 & Hsame2).
  { pose proof (Z.mod_pos_bound (h mod 100) 10). lia. }
  exists (Py.replace Py.comma Py.apostrophe
            (F64.group_thousands (Py.str_of_nonneg (h / 100)))), d1, d2.
  split; [| split; [| split; [| split; assumption]]].
  - unfold F64.fixed_2, F64.two_digits. rewrite Hd1, Hd2.
    unfold Py.replace in *. rewrite !map_app.
    injection Hsame1 as Hsame1. injection Hsame2 as Hsame2.
    cbn [map app]. rewrite Hsame1, Hsame2. reflexivity.
  - unfold Py.replace, F64.group_thousands. rewrite length_map, length_rev.
    pose proof (str_of_nonneg_not_empty (h / 100)) as Hlen.
    pose proof (length_group_rev _ (rev (Py.str_of_nonneg (h / 100))) (Nat.le_refl _))
      as Hgroup.
    rewrite length_rev in Hgroup. lia.
  - apply apostrophes_for_commas. unfold F64.group_thousands.
    apply forallb_rev_true.
    eapply forallb_group_rev; [reflexivity | apply Nat.le_refl |].
    apply forallb_rev_true. unfold Py.str_of_nonneg.
    pose proof (digits_uint_chars (N.to_uint (Z.to_N (h / 100)))) as Hdigits.
    rewrite forallb_forall in *. intros ch Hin. now rewrite (Hdigits ch Hin).
Qed.

(** X10. The amount of a row, when it is a finite number other than [-0.0],
    is drawn as a non-empty run of digits and apostrophes, a full stop and
    exactly two digits: it has no comma, no sign and no exponent, and
    always two decimals. *)
Theorem amount_has_two_decimals :
  forall amount : float64,
    F64.is_finite amount = true ->
    is_negative_zero amount = false ->
    exists int_part d1 d2,
      amount_str amount = int_part ++ [Py.full_stop; d1; d2]
      /\ (0 < List.length int_part)%nat
      /\ forallb is_digit_or_apostrophe int_part = true
      /\ is_digit d1 = true
      /\ is_digit d2 = true.
Proof.
  intros amount Hfinite Hzero. rewrite (amount_str_of_abs amount Hzero). unfold swiss_2f.
  destruct amount as [[|] | [|] | | s m e]; try discriminate Hfinite;
    try discriminate Hzero; cbn [F64.abs SFabs F64.format_comma_2f app];
    apply shape_of_fixed_2.
Qed.

Lemma amount_has_two_decimals_witness :
  exists int_part d1 d2,
    amount_str (F64.lit (-7500.00)) = int_part ++ [Py.full_stop; d1; d2]
    /\ (0 < List.length int_part)%nat
    /\ forallb is_digit_or_apostrophe int_part = true
    /\ is_digit d1 = true
    /\ is_digit d2 = true.
Proof.
  apply (amount_has_two_decimals (F64.lit (-7500.00))); vm_compute; reflexivity.
Defined.

(** ** The total income of at most one credit *)

Lemma sum_of_one (compensated : bool) (x : float64) :
  is_negative x = false -> Builtins.sum compensated [x] = x.
Proof.
  destruct compensated, x as [[|] | [|] | | [|] m e]; intros H;
    try discriminate H; reflexivity.
Qed.

(** X11. When no record has a negative amount the total income is zero,
    and when exactly one has, the total income is the absolute value of
    that amount, with no rounding: [sum] adds to 0 only. *)
Theorem total_income_of_at_most_one_credit :
  forall (compensated : bool) (txs : list transaction),
    (List.length (filter (fun t => (amount_of t <? 0%Z)%f64) txs) <= 1)%nat ->
    total_income compensated txs
    = match filter (fun t => (amount_of t <? 0)%f64) txs with
      | [] => F64.of_int 0
      | t :: _ => F64.abs (amount_of t)
      end.
Proof.
  intros compensated txs Hlen. unfold total_income.
  replace (filter (fun '(_, _, amt) => (amt <? 0)%f64) txs)
    with (filter (fun t => (amount_of t <? 0)%f64) txs)
    by (apply filter_ext; now intros [[date desc] amt]).
  destruct (filter (fun t => (amount_of t <? 0)%f64) txs) as [| [[date desc] amt] rest].
  - now destruct compensated.
  - destruct rest; [| simpl in Hlen; lia].
    cbn [map amount_of snd]. apply sum_of_one.
    now destruct amt as [[|] | [|] | | [|] m e].
Qed.

Lemma total_income_of_at_most_one_credit_witness :
  total_income true transactions = F64.abs (F64.lit (-7500.00))
  /\ total_income false (skipn 1 transactions) = F64.of_int 0.
Proof.
  split.
  - refine (eq_trans (total_income_of_at_most_one_credit true transactions _) _).
    + vm_compute. lia.
    + vm_compute. reflexivity.
  - refine (eq_trans (total_income_of_at_most_one_credit false (skipn 1 transactions) _)
              _).
    + vm_compute. lia.
    + vm_compute. reflexivity.
Defined.
